(** * magellan.types: the shape type model and its codecs

    A shallow embedding of [python/magellan/types.py] (Python 2): the
    shapes [Point], [Polygon] and [PolyLine], their user-defined-type
    codecs [PointUDT], [PolygonUDT] and [PolyLineUDT], the registration
    hook [Shape.registerPicklers] and the JSON dispatcher
    [_inbound_shape_converter].

    Python objects are values of the untyped universe [pyval]; a call
    either returns or raises ([result]); code that can touch the
    process-wide state (the class attribute [__initialized__], the JVM
    behind the Spark context, standard output) runs in the state monad
    [M] over [world]. *)

From Stdlib Require Import ZArith Bool List String Ascii DecimalString Lia.
From Stdlib Require Import Floats.SpecFloat.
Import ListNotations.
Local Open Scope string_scope.
#[local] Set Warnings "-register-all".

(* ================================================================= *)
(** ** Python values *)

(** The classes a value of the universe can be an instance of. *)
Inductive pytype :=
| TNoneType | TBool | TInt | TLong | TFloat | TStr
| TTuple | TList | TDict | TType
| TPoint | TPolygon | TPolyLine.

Scheme Equality for pytype.

(** Values.  A [float] is an IEEE 754 binary64 number ([spec_float]);
    [PStr] stands for text ([str], and the ASCII [unicode] objects that
    [json.loads] produces, which compare and hash like the [str] with
    the same characters); a [PDict] lists its entries in the dict's
    iteration order and has string keys, as JSON objects do.  A shape
    instance carries its attributes; its [_shape_type] is fixed by its
    class. *)
Inductive pyval :=
| PNone
| PBool (b : bool)
| PInt (z : Z)
| PLong (z : Z)
| PFloat (f : spec_float)
| PStr (s : string)
| PTuple (items : list pyval)
| PList (items : list pyval)
| PDict (entries : list (string * pyval))
| PType (t : pytype)
| PPoint (x y : pyval)
| PPolygon (indices points : pyval)
| PPolyLine (indices points : pyval).

(** [type(obj)] *)
Definition py_type (v : pyval) : pytype :=
  match v with
  | PNone => TNoneType
  | PBool _ => TBool
  | PInt _ => TInt
  | PLong _ => TLong
  | PFloat _ => TFloat
  | PStr _ => TStr
  | PTuple _ => TTuple
  | PList _ => TList
  | PDict _ => TDict
  | PType _ => TType
  | PPoint _ _ => TPoint
  | PPolygon _ _ => TPolygon
  | PPolyLine _ _ => TPolyLine
  end.

(** [isinstance(obj, cls)] for a class without subclasses, which is the
    case of [Point], [Polygon] and [PolyLine]. *)
Definition isinstance (v : pyval) (cls : pytype) : bool :=
  pytype_beq (py_type v) cls.

(* ================================================================= *)
(** ** Exceptions and results *)

Inductive exn_class :=
| AssertionError | TypeError | KeyError | IndexError
| AttributeError | ValueError | ImportError | Py4JJavaError.

(** What an exception carries.  [Format fmt args] is the string
    [fmt % args], kept unevaluated. *)
Inductive message :=
| Text (s : string)
| Format (fmt : string) (args : list pyval)
| Value (v : pyval)
| Interpreter.

Inductive exn := Exn (c : exn_class) (m : message).

Inductive result (A : Type) :=
| Ok (a : A)
| Raise (e : exn).
Arguments Ok {A} a.
Arguments Raise {A} e.

Definition bindR {A B} (c : result A) (k : A -> result B) : result B :=
  match c with
  | Ok a => k a
  | Raise e => Raise e
  end.

Notation "'let?' x := c 'in' k" := (bindR c (fun x => k))
  (at level 10, x name, c at level 100, k at level 200).

(** A list comprehension [[f(x) for x in xs]]: left to right, the first
    exception ends it. *)
Definition mapR {A B} (f : A -> result B) : list A -> result (list B) :=
  fix go (xs : list A) : result (list B) :=
    match xs with
    | [] => Ok []
    | x :: xs' =>
        let? y := f x in
        let? ys := go xs' in
        Ok (y :: ys)
    end.

(* ================================================================= *)
(** ** Builtins: [==], [len], subscripts, iteration *)

Inductive number :=
| NInt (z : Z)
| NFloat (f : spec_float).

(** The numeric value of an [int], [long], [float] or [bool]. *)
Definition as_number (v : pyval) : option number :=
  match v with
  | PBool b => Some (NInt (if b then 1 else 0))
  | PInt z | PLong z => Some (NInt z)
  | PFloat f => Some (NFloat f)
  | _ => None
  end.

(** An integer and a float are compared by their exact values. *)
Definition int_float_eq (z : Z) (f : spec_float) : bool :=
  match f with
  | S754_zero _ => (z =? 0)%Z
  | S754_infinity _ | S754_nan => false
  | S754_finite s m e =>
      let v := if s then Z.neg m else Z.pos m in
      if (0 <=? e)%Z then (z =? v * 2 ^ e)%Z
      else (z * 2 ^ (- e) =? v)%Z
  end.

Definition number_eq (a b : number) : bool :=
  match a, b with
  | NInt x, NInt y => (x =? y)%Z
  | NFloat f, NFloat g => SFeqb f g
  | NInt x, NFloat g => int_float_eq x g
  | NFloat f, NInt y => int_float_eq y f
  end.

Definition forallb2 {A} (f : A -> A -> bool) : list A -> list A -> bool :=
  fix go (l l' : list A) : bool :=
    match l, l' with
    | [], [] => true
    | x :: r, x' :: r' => f x x' && go r r'
    | _, _ => false
    end.

Fixpoint assoc {V} (k : string) (d : list (string * V)) : option V :=
  match d with
  | [] => None
  | (k', v) :: d' => if String.eqb k k' then Some v else assoc k d'
  end.

(** [a == b].  The outcome of [==] on containers depends on whether
    the operands are one object, and [same] says so.  Numbers compare
    by value across [bool], [int], [long] and [float], and a NaN equals
    nothing, itself included, whether or not the operands are one
    object.  A tuple, list or dict compares its elements by identity
    first and by [==] next, so that one compared with itself is equal
    whatever it holds, and two of them are compared element by element.
    Two [Point]s are compared by [Point.__eq__], which applies [==] to
    both coordinates (the same objects when the point is compared with
    itself).  [Polygon] and [PolyLine] define no [__eq__] and inherit
    pyspark's [DataType.__eq__] (same class and equal [__dict__], a
    dict comparison).  With [same = false] the operands are two objects
    that have no object in common on which [==] is not reflexive (a
    NaN, or a point that holds one), as any two values built apart
    are. *)
Fixpoint py_cmp (same : bool) (a b : pyval) {struct a} : bool :=
  match as_number a, as_number b with
  | Some n, Some m => number_eq n m
  | None, None =>
      match a, b with
      | PNone, PNone => true
      | PStr s, PStr t => String.eqb s t
      | PTuple l, PTuple l' => same || forallb2 (py_cmp false) l l'
      | PList l, PList l' => same || forallb2 (py_cmp false) l l'
      | PDict d, PDict d' =>
          same
          || (Nat.eqb (List.length d) (List.length d')
              && forallb (fun kv =>
                            match kv with
                            | (k, v) =>
                                match assoc k d' with
                                | Some v' => py_cmp false v v'
                                | None => false
                                end
                            end) d)
      | PType t, PType t' => pytype_beq t t'
      | PPoint x y, PPoint x' y' => py_cmp same x x' && py_cmp same y y'
      | PPolygon i p, PPolygon i' p' =>
          same || (py_cmp false i i' && py_cmp false p p')
      | PPolyLine i p, PPolyLine i' p' =>
          same || (py_cmp false i i' && py_cmp false p p')
      | _, _ => false
      end
  | _, _ => false
  end.

(** [a == b] for two operands that are not one object. *)
Definition py_eq (a b : pyval) : bool := py_cmp false a b.

(** [len(obj)] *)
Definition py_len (v : pyval) : result nat :=
  match v with
  | PTuple l | PList l => Ok (List.length l)
  | PStr s => Ok (String.length s)
  | PDict d => Ok (List.length d)
  | _ => Raise (Exn TypeError Interpreter)
  end.

(** [obj[i]] for a literal index [i >= 0]. *)
Definition py_index (v : pyval) (i : nat) : result pyval :=
  match v with
  | PTuple l | PList l =>
      match nth_error l i with
      | Some x => Ok x
      | None => Raise (Exn IndexError Interpreter)
      end
  | PStr s =>
      match String.get i s with
      | Some c => Ok (PStr (String c EmptyString))
      | None => Raise (Exn IndexError Interpreter)
      end
  | PDict _ => Raise (Exn KeyError (Value (PInt (Z.of_nat i))))
  | _ => Raise (Exn TypeError Interpreter)
  end.

(** [obj[key]] for a string [key]. *)
Definition py_getitem (v : pyval) (key : string) : result pyval :=
  match v with
  | PDict d =>
      match assoc key d with
      | Some x => Ok x
      | None => Raise (Exn KeyError (Value (PStr key)))
      end
  | _ => Raise (Exn TypeError Interpreter)
  end.

(** The elements [for x in obj] goes through. *)
Definition py_iter (v : pyval) : result (list pyval) :=
  match v with
  | PTuple l | PList l => Ok l
  | PStr s =>
      Ok (map (fun c => PStr (String c EmptyString)) (list_ascii_of_string s))
  | PDict d => Ok (map (fun kv => PStr (fst kv)) d)
  | _ => Raise (Exn TypeError Interpreter)
  end.

(* ================================================================= *)
(** ** [str] and [repr] *)

(** How the interpreter writes a float and quotes a string is its own
    business; the rest of [str] and [repr] is determined below. *)
Class Formatter := {
  float_str : spec_float -> string;
  float_repr : spec_float -> string;
  str_repr : string -> string
}.

Definition int_str (z : Z) : string := NilZero.string_of_int (Z.to_int z).

Definition type_repr (t : pytype) : string :=
  match t with
  | TNoneType => "<type 'NoneType'>"
  | TBool => "<type 'bool'>"
  | TInt => "<type 'int'>"
  | TLong => "<type 'long'>"
  | TFloat => "<type 'float'>"
  | TStr => "<type 'str'>"
  | TTuple => "<type 'tuple'>"
  | TList => "<type 'list'>"
  | TDict => "<type 'dict'>"
  | TType => "<type 'type'>"
  | TPoint => "<class 'magellan.types.Point'>"
  | TPolygon => "<class 'magellan.types.Polygon'>"
  | TPolyLine => "<class 'magellan.types.PolyLine'>"
  end.

(** [[str(i) for i in obj]], written so that [str] is only applied to
    components of [obj]: the characters of a string and the keys of a
    dict are strings, which [str] returns as they are. *)
Definition str_items (str : pyval -> result string) (obj : pyval)
  : result (list string) :=
  match obj with
  | PTuple l | PList l => mapR str l
  | PStr s => Ok (map (fun c => String c EmptyString) (list_ascii_of_string s))
  | PDict d => Ok (map fst d)
  | _ => Raise (Exn TypeError Interpreter)
  end.

(** The bodies of the three [__str__] methods, over the [str] they call
    on the attributes. *)
Definition Point_str (str : pyval -> result string) (x y : pyval)
  : result string :=
  let? sx := str x in
  let? sy := str y in
  Ok ("Point (" ++ sx ++ "," ++ sy ++ ")").

Definition Polygon_str (str : pyval -> result string) (indices points : pyval)
  : result string :=
  let? ixs := str_items str indices in
  let inds := "[" ++ String.concat "," ixs ++ "]" in
  let? vs := str_items str points in
  let pts := "[" ++ String.concat "," vs ++ "]" in
  Ok ("Polygon (" ++ String.concat "," [inds; pts] ++ ")").

Definition PolyLine_str (str : pyval -> result string)
  (indices points : pyval) : result string :=
  let? ixs := str_items str indices in
  let inds := "[" ++ String.concat "," ixs ++ "]" in
  let? vs := str_items str points in
  let pts := "[" ++ String.concat "," vs ++ "]" in
  Ok ("Polygon (" ++ String.concat "," [inds; pts] ++ ")").

(** [repr(obj)] when [r] is [true], [str(obj)] otherwise.  A container
    shows the [repr] of its elements; a shape is shown by its
    [__str__], which is also its [__repr__]. *)
Fixpoint py_render `{Formatter} (r : bool) (v : pyval) {struct v}
  : result string :=
  match v with
  | PNone => Ok "None"
  | PBool b => Ok (if b then "True" else "False")
  | PInt z => Ok (int_str z)
  | PLong z => Ok (if r then int_str z ++ "L" else int_str z)
  | PFloat f => Ok (if r then float_repr f else float_str f)
  | PStr s => Ok (if r then str_repr s else s)
  | PTuple l =>
      let? ss := mapR (py_render true) l in
      Ok (match ss with
          | [s] => "(" ++ s ++ ",)"
          | _ => "(" ++ String.concat ", " ss ++ ")"
          end)
  | PList l =>
      let? ss := mapR (py_render true) l in
      Ok ("[" ++ String.concat ", " ss ++ "]")
  | PDict d =>
      let? ss := mapR (fun kv =>
                         match kv with
                         | (k, x) =>
                             let? sx := py_render true x in
                             Ok (str_repr k ++ ": " ++ sx)
                         end) d in
      Ok ("{" ++ String.concat ", " ss ++ "}")
  | PType t => Ok (type_repr t)
  | PPoint x y => Point_str (py_render false) x y
  | PPolygon i p => Polygon_str (py_render false) i p
  | PPolyLine i p => PolyLine_str (py_render false) i p
  end.

Definition py_str `{Formatter} (v : pyval) : result string :=
  py_render false v.

Definition py_repr `{Formatter} (v : pyval) : result string :=
  py_render true v.

(* ================================================================= *)
(** ** Process-wide state and the monad of effects *)

(** What the module can read or change outside the values it is given:
    - [__initialized__]: the class attribute [Point.__initialized__]
      (declared on [Shape], read and assigned through [Point]);
    - [_active_spark_context]: whether
      [SparkContext._active_spark_context] is a context (not [None]);
    - [jvm_EvaluatePython]: the names [getMethods()] lists for the class
      [org.apache.spark.sql.magellan.EvaluatePython], or [None] when the
      context class loader cannot load it;
    - [jvm_registrations]: how many times the JVM-side
      [registerPicklers] has been invoked;
    - [stdout]: the objects whose text [print] has written, oldest
      first. *)
Record world := mkWorld {
  __initialized__ : bool;
  _active_spark_context : bool;
  jvm_EvaluatePython : option (list string);
  jvm_registrations : nat;
  stdout : list pyval
}.

Definition M (A : Type) : Type := world -> result A * world.

Definition ret {A} (a : A) : M A := fun w => (Ok a, w).

Definition raise {A} (e : exn) : M A := fun w => (Raise e, w).

Definition bind {A B} (c : M A) (k : A -> M B) : M B :=
  fun w =>
    match c w with
    | (Ok a, w') => k a w'
    | (Raise e, w') => (Raise e, w')
    end.

Notation "x <- c ;; k" := (bind c (fun x => k))
  (at level 61, c at next level, right associativity).
Notation "c ;; k" := (bind c (fun _ => k))
  (at level 61, right associativity).

(** A builtin that returns or raises without touching the state. *)
Definition lift {A} (r : result A) : M A := fun w => (r, w).

Definition get : M world := fun w => (Ok w, w).

Definition put (w : world) : M unit := fun _ => (Ok tt, w).

(** [assert cond, msg] *)
Definition py_assert (cond : bool) (msg : message) : M unit :=
  if cond then ret tt else raise (Exn AssertionError msg).

(** [print obj]: the object is rendered with [str] first, which can
    raise, and its text then goes to the standard output. *)
Definition py_print `{Formatter} (obj : pyval) : M unit :=
  lift (py_str obj) ;;
  w <- get ;;
  put (mkWorld (__initialized__ w) (_active_spark_context w)
               (jvm_EvaluatePython w) (jvm_registrations w)
               (stdout w ++ [obj])%list).

(** [raise TypeError("cannot serialize %r of type %r" % (obj, type(obj)))]:
    the message is formatted before the exception is built, and [%r]
    calls [repr] on the object, which can raise in its turn. *)
Definition raise_cannot_serialize `{Formatter} {A} (obj : pyval) : M A :=
  r <- lift (py_repr obj) ;;
  raise (Exn TypeError
           (Text ("cannot serialize " ++ r ++ " of type "
                  ++ type_repr (py_type obj)))).

(** A list comprehension whose body has effects. *)
Definition mapM {A B} (f : A -> M B) : list A -> M (list B) :=
  fix go (xs : list A) : M (list B) :=
    match xs with
    | [] => ret []
    | x :: xs' =>
        y <- f x ;;
        ys <- go xs' ;;
        ret (y :: ys)
    end.

(* ================================================================= *)
(** ** class Shape(DataType) *)

Module Shape.

(** The loop that picks [wmethod]: the last method named
    ["registerPicklers"], [None] when there is none. *)
Definition find_wmethod (methods : list string) : option string :=
  fold_left
    (fun wmethod mthd =>
       if String.eqb mthd "registerPicklers" then Some mthd else wmethod)
    methods None.

Definition registerPicklers (self : pyval) : M unit :=
  w <- get ;;
  if Bool.eqb (__initialized__ w) false then
    if _active_spark_context w then
      match jvm_EvaluatePython w with
      | None => raise (Exn Py4JJavaError Interpreter)
      | Some methods =>
          match find_wmethod methods with
          | None => raise (Exn AttributeError Interpreter)
          | Some _ =>
              (* wmethod.invoke(None, java_args) *)
              put (mkWorld (__initialized__ w) (_active_spark_context w)
                     (jvm_EvaluatePython w) (S (jvm_registrations w))
                     (stdout w)) ;;
              (* Point.__initialized__ = True *)
              w' <- get ;;
              put (mkWorld true (_active_spark_context w')
                     (jvm_EvaluatePython w') (jvm_registrations w')
                     (stdout w'))
          end
      end
    else raise (Exn AttributeError Interpreter)
  else ret tt.

End Shape.

(* ================================================================= *)
(** ** class PointUDT(UserDefinedType) and class Point(Shape) *)

Module PointUDT.

Definition sqlType : pyval :=
  PPoint (PFloat (S754_zero false)) (PFloat (S754_zero false)).

Definition module : string := "magellan.types".

Definition scalaUDT : string := "magellan.PointUDT".

Definition serialize `{Formatter} (obj : pyval) : M pyval :=
  if isinstance obj TPoint then ret obj
  else raise_cannot_serialize obj.

Definition deserialize (datum : pyval) : M pyval :=
  if isinstance datum TPoint then ret datum
  else
    n <- lift (py_len datum) ;;
    py_assert (Nat.eqb n 3)
      (Format "PointUDT.deserialize given row with length %d but requires 3"
         [PInt (Z.of_nat n)]) ;;
    tpe <- lift (py_index datum 0) ;;
    py_assert (py_eq tpe (PInt 1)) (Text "Point should have type = 1") ;;
    x <- lift (py_index datum 1) ;;
    y <- lift (py_index datum 2) ;;
    ret (PPoint x y).

Definition simpleString : string := "point".

Definition fromJson (json : pyval) : M pyval :=
  x <- lift (py_getitem json "x") ;;
  y <- lift (py_getitem json "y") ;;
  ret (PPoint x y).

End PointUDT.

Module Point.

Definition _shape_type : Z := 1.

(** The call of [Point] on positional arguments, with
    [__init__(self, x = 0.0, y = 0.0)]. *)
Definition __init__ (args : list pyval) : result pyval :=
  match args with
  | [] => Ok (PPoint (PFloat (S754_zero false)) (PFloat (S754_zero false)))
  | [x] => Ok (PPoint x (PFloat (S754_zero false)))
  | [x; y] => Ok (PPoint x y)
  | _ => Raise (Exn TypeError Interpreter)
  end.

(** [self.x] and [self.y] *)
Definition x (self : pyval) : pyval :=
  match self with PPoint a _ => a | _ => PNone end.
Definition y (self : pyval) : pyval :=
  match self with PPoint _ b => b | _ => PNone end.

Definition __str__ `{Formatter} (self : pyval) : result string :=
  Point_str py_str (x self) (y self).

Definition __repr__ `{Formatter} (self : pyval) : result string :=
  __str__ self.

Definition __unicode__ `{Formatter} (self : pyval) : result string :=
  __str__ self.

(** [__eq__]: [==] on both coordinates, taken as objects the two
    points do not share; on numbers sharing makes no difference to
    [==]. *)
Definition __eq__ (self other : pyval) : bool :=
  isinstance other TPoint
  && py_eq (x self) (x other) && py_eq (y self) (y other).

Definition __reduce__ (self : pyval) : pyval :=
  PTuple [PType TPoint; PTuple [x self; y self]].

Definition fromJson (json : pyval) : M pyval :=
  x <- lift (py_getitem json "x") ;;
  y <- lift (py_getitem json "y") ;;
  ret (PPoint x y).

Definition jsonValue (self : pyval) : M pyval :=
  Shape.registerPicklers self ;;
  ret (PDict [("type", PStr "udt");
              ("pyClass", PStr "magellan.types.PointUDT");
              ("class", PStr "magellan.PointUDT");
              ("sqlType", PStr "magellan.Point")]).

End Point.

(* ================================================================= *)
(** ** class PolygonUDT(UserDefinedType) and class Polygon(Shape) *)

Module PolygonUDT.

Definition sqlType : pyval := PPolygon (PList []) (PList []).

Definition module : string := "magellan.types".

Definition scalaUDT : string := "magellan.PolygonUDT".

Definition serialize `{Formatter} (obj : pyval) : M pyval :=
  if isinstance obj TPolygon then ret obj
  else raise_cannot_serialize obj.

Definition deserialize (datum : pyval) : M pyval :=
  if isinstance datum TPolygon then ret datum
  else
    n <- lift (py_len datum) ;;
    py_assert (Nat.eqb n 3)
      (Format "PolygonUDT.deserialize given row with length %d but requires 4"
         [PInt (Z.of_nat n)]) ;;
    tpe <- lift (py_index datum 0) ;;
    py_assert (py_eq tpe (PInt 5)) (Text "Polygon should have type = 5") ;;
    indices <- lift (py_index datum 1) ;;
    field2 <- lift (py_index datum 2) ;;
    items <- lift (py_iter field2) ;;
    points <- mapM PointUDT.deserialize items ;;
    ret (PPolygon indices (PList points)).

Definition simpleString : string := "polygon".

Definition fromJson (json : pyval) : M pyval :=
  indices <- lift (py_getitem json "indices") ;;
  field <- lift (py_getitem json "points") ;;
  items <- lift (py_iter field) ;;
  points <- mapM PointUDT.fromJson items ;;
  ret (PPolygon indices (PList points)).

End PolygonUDT.

Module Polygon.

Definition _shape_type : Z := 5.

(** The call of [Polygon] on positional arguments, with
    [__init__(self, indices = [], points = [])].  The default lists
    are shared between calls in Python; nothing in the module mutates
    them, so their value is all that matters here. *)
Definition __init__ (args : list pyval) : result pyval :=
  match args with
  | [] => Ok (PPolygon (PList []) (PList []))
  | [indices] => Ok (PPolygon indices (PList []))
  | [indices; points] => Ok (PPolygon indices points)
  | _ => Raise (Exn TypeError Interpreter)
  end.

(** [self.indices] and [self.points] *)
Definition indices (self : pyval) : pyval :=
  match self with PPolygon i _ => i | _ => PNone end.
Definition points (self : pyval) : pyval :=
  match self with PPolygon _ p => p | _ => PNone end.

Definition __str__ `{Formatter} (self : pyval) : result string :=
  Polygon_str py_str (indices self) (points self).

Definition __repr__ `{Formatter} (self : pyval) : result string :=
  __str__ self.

Definition __reduce__ (self : pyval) : pyval :=
  PTuple [PType TPolygon; PTuple [indices self; points self]].

Definition fromJson (json : pyval) : M pyval :=
  indices <- lift (py_getitem json "indices") ;;
  field <- lift (py_getitem json "points") ;;
  items <- lift (py_iter field) ;;
  points <- mapM PointUDT.fromJson items ;;
  ret (PPolygon indices (PList points)).

Definition jsonValue (self : pyval) : M pyval :=
  Shape.registerPicklers self ;;
  ret (PDict [("type", PStr "udt");
              ("pyClass", PStr "magellan.types.PolygonUDT");
              ("class", PStr "magellan.Polygon");
              ("sqlType", PStr "magellan.Polygon")]).

End Polygon.

(* ================================================================= *)
(** ** class PolyLineUDT(UserDefinedType) and class PolyLine(Shape) *)

Module PolyLineUDT.

Definition sqlType : pyval := PPolyLine (PList []) (PList []).

Definition module : string := "magellan.types".

Definition scalaUDT : string := "magellan.PolyLineUDT".

Definition serialize `{Formatter} (obj : pyval) : M pyval :=
  if isinstance obj TPolyLine then ret obj
  else raise_cannot_serialize obj.

Definition deserialize `{Formatter} (datum : pyval) : M pyval :=
  if isinstance datum TPolyLine then ret datum
  else
    n <- lift (py_len datum) ;;
    py_assert (Nat.eqb n 3)
      (Format "PolyLineUDT.deserialize given row with length %d but requires 4"
         [PInt (Z.of_nat n)]) ;;
    py_print datum ;;
    tpe <- lift (py_index datum 0) ;;
    py_assert (py_eq tpe (PInt 3)) (Text "PolyLine should have type = 3") ;;
    indices <- lift (py_index datum 1) ;;
    field2 <- lift (py_index datum 2) ;;
    items <- lift (py_iter field2) ;;
    points <- mapM PointUDT.deserialize items ;;
    ret (PPolyLine indices (PList points)).

Definition simpleString : string := "polyline".

Definition fromJson (json : pyval) : M pyval :=
  indices <- lift (py_getitem json "indices") ;;
  field <- lift (py_getitem json "points") ;;
  items <- lift (py_iter field) ;;
  points <- mapM PointUDT.fromJson items ;;
  ret (PPolyLine indices (PList points)).

End PolyLineUDT.

Module PolyLine.

Definition _shape_type : Z := 3.

(** The call of [PolyLine] on positional arguments, with
    [__init__(self, indices = [], points = [])]. *)
Definition __init__ (args : list pyval) : result pyval :=
  match args with
  | [] => Ok (PPolyLine (PList []) (PList []))
  | [indices] => Ok (PPolyLine indices (PList []))
  | [indices; points] => Ok (PPolyLine indices points)
  | _ => Raise (Exn TypeError Interpreter)
  end.

Definition indices (self : pyval) : pyval :=
  match self with PPolyLine i _ => i | _ => PNone end.
Definition points (self : pyval) : pyval :=
  match self with PPolyLine _ p => p | _ => PNone end.

Definition __str__ `{Formatter} (self : pyval) : result string :=
  PolyLine_str py_str (indices self) (points self).

Definition __repr__ `{Formatter} (self : pyval) : result string :=
  __str__ self.

Definition __reduce__ (self : pyval) : pyval :=
  PTuple [PType TPolyLine; PTuple [indices self; points self]].

Definition fromJson (json : pyval) : M pyval :=
  indices <- lift (py_getitem json "indices") ;;
  field <- lift (py_getitem json "points") ;;
  items <- lift (py_iter field) ;;
  points <- mapM PointUDT.fromJson items ;;
  ret (PPolyLine indices (PList points)).

Definition jsonValue (self : pyval) : M pyval :=
  Shape.registerPicklers self ;;
  ret (PDict [("type", PStr "udt");
              ("pyClass", PStr "magellan.types.PolyLineUDT");
              ("class", PStr "magellan.PolyLine");
              ("sqlType", PStr "magellan.PolyLine")]).

End PolyLine.

(* ================================================================= *)
(** ** _inbound_shape_converter *)

(** [s.rfind(".")]: the index of the last dot, [-1] without one. *)
Fixpoint rfind_from (s : string) (i : Z) (found : Z) : Z :=
  match s with
  | EmptyString => found
  | String c s' =>
      rfind_from s' (i + 1)%Z (if Ascii.eqb c "."%char then i else found)
  end.

Definition rfind_dot (s : string) : Z := rfind_from s 0%Z (-1)%Z.

(** A slice bound as Python reads it: counted from the end when
    negative, cut to the length of the string. *)
Definition slice_bound (s : string) (i : Z) : nat :=
  let n := Z.of_nat (String.length s) in
  Z.to_nat (Z.min n (if (i <? 0)%Z then Z.max 0 (n + i) else i)).

(** [s[:i]] *)
Definition slice_to (s : string) (i : Z) : string :=
  substring 0 (slice_bound s i) s.

(** [s[i:]] *)
Definition slice_from (s : string) (i : Z) : string :=
  substring (slice_bound s i) (String.length s - slice_bound s i) s.

(** The classes of this module that have a [fromJson]. *)
Inductive shape_class :=
| CPointUDT | CPoint | CPolygonUDT | CPolygon | CPolyLineUDT | CPolyLine.

Definition class_name (c : shape_class) : string :=
  match c with
  | CPointUDT => "PointUDT"
  | CPoint => "Point"
  | CPolygonUDT => "PolygonUDT"
  | CPolygon => "Polygon"
  | CPolyLineUDT => "PolyLineUDT"
  | CPolyLine => "PolyLine"
  end.

Definition class_fromJson (c : shape_class) : pyval -> M pyval :=
  match c with
  | CPointUDT => PointUDT.fromJson
  | CPoint => Point.fromJson
  | CPolygonUDT => PolygonUDT.fromJson
  | CPolygon => Polygon.fromJson
  | CPolyLineUDT => PolyLineUDT.fromJson
  | CPolyLine => PolyLine.fromJson
  end.

(** [getattr(magellan.types, name)] when it is one of these classes. *)
Definition magellan_types_class (name : string) : option shape_class :=
  find (fun c => String.eqb name (class_name c))
       [CPointUDT; CPoint; CPolygonUDT; CPolygon; CPolyLineUDT; CPolyLine].

(** What lies outside this module: the JSON parser, and whatever
    [__import__], [getattr] and [fromJson] do for a name that is not
    [magellan.types.<Class>] for one of the six classes above: an
    imported pyspark class, another module, a failed import or
    attribute lookup, and also a name that the import machinery leads
    back to this module by another route (Python 2 tries an import
    relative to the package first, so that ["types.PolygonUDT"] finds
    [magellan/types.py]). *)
Class Host := {
  json_loads : string -> result pyval;
  foreign_fromJson : string -> string -> pyval -> M pyval
}.

(** [getattr(__import__(module, ..., [shapeClass]), shapeClass).fromJson] *)
Definition resolve_fromJson `{Host} (module shapeClass : string)
  : pyval -> M pyval :=
  if String.eqb module "magellan.types" then
    match magellan_types_class shapeClass with
    | Some c => class_fromJson c
    | None => foreign_fromJson module shapeClass
    end
  else foreign_fromJson module shapeClass.

Definition _inbound_shape_converter `{Formatter} `{Host}
  (json_string : string) : M pyval :=
  j <- lift (json_loads json_string) ;;
  pyClass <- lift (py_getitem j "pyClass") ;;
  shapeType <- lift (py_str pyClass) ;;
  let split := rfind_dot shapeType in
  let module := slice_to shapeType split in
  let shapeClass := slice_from shapeType (split + 1) in
  resolve_fromJson module shapeClass j.

(* ================================================================= *)
(** ** The codecs side by side *)

(** The three shape variants, with the codec, the native class and the
    discriminant of each. *)
Inductive variant := VPoint | VPolygon | VPolyLine.

Definition native (v : variant) : pytype :=
  match v with
  | VPoint => TPoint
  | VPolygon => TPolygon
  | VPolyLine => TPolyLine
  end.

Definition discriminant (v : variant) : Z :=
  match v with
  | VPoint => Point._shape_type
  | VPolygon => Polygon._shape_type
  | VPolyLine => PolyLine._shape_type
  end.

Definition serialize `{Formatter} (v : variant) : pyval -> M pyval :=
  match v with
  | VPoint => PointUDT.serialize
  | VPolygon => PolygonUDT.serialize
  | VPolyLine => PolyLineUDT.serialize
  end.

Definition deserialize `{Formatter} (v : variant) : pyval -> M pyval :=
  match v with
  | VPoint => PointUDT.deserialize
  | VPolygon => PolygonUDT.deserialize
  | VPolyLine => PolyLineUDT.deserialize
  end.

Definition jsonValue (v : variant) : pyval -> M pyval :=
  match v with
  | VPoint => Point.jsonValue
  | VPolygon => Polygon.jsonValue
  | VPolyLine => PolyLine.jsonValue
  end.

(** The engine-datum triple [(1, x, y)] of a point. *)
Definition point_triple (p : pyval) : pyval :=
  PTuple [PInt Point._shape_type; Point.x p; Point.y p].

(** A computation that only returns or raises: the same outcome in
    every state, and the state left as it was. *)
Definition pure {A} (c : M A) : Prop :=
  exists r : result A, forall w, c w = (r, w).

(** The binary64 number 1.75. *)
Definition float_1_75 : spec_float := S754_finite false 7881299347898368 (-52).

(** A process that has registered nothing yet, on a host where the
    registration can be carried out. *)
Definition fresh_process : world :=
  mkWorld false true (Some ["registerPicklers"]) 0 [].

(* ================================================================= *)
(** ** Vocabulary of the statements *)

(** A datum the Point codec decodes. *)
Definition decodes_to (d p : pyval) : Prop :=
  forall w, PointUDT.deserialize d w = (Ok p, w).

(** The instance of a variant's class with the given two attributes
    ([x] and [y] for a point, [indices] and [points] otherwise). *)
Definition entity (v : variant) (indices points : pyval) : pyval :=
  match v with
  | VPoint => PPoint indices points
  | VPolygon => PPolygon indices points
  | VPolyLine => PPolyLine indices points
  end.

(** The messages of the two assertions of each [deserialize]. *)
Definition arity_message (v : variant) (n : nat) : message :=
  Format
    match v with
    | VPoint => "PointUDT.deserialize given row with length %d but requires 3"
    | VPolygon => "PolygonUDT.deserialize given row with length %d but requires 4"
    | VPolyLine => "PolyLineUDT.deserialize given row with length %d but requires 4"
    end
    [PInt (Z.of_nat n)].

Definition tag_message (v : variant) : message :=
  Text
    match v with
    | VPoint => "Point should have type = 1"
    | VPolygon => "Polygon should have type = 5"
    | VPolyLine => "PolyLine should have type = 3"
    end.

(** The binary64 numbers 1.0 and 2.0. *)
Definition float_1 : spec_float := S754_finite false 4503599627370496 (-52).
Definition float_2 : spec_float := S754_finite false 4503599627370496 (-51).

(** The host can carry out the registration: a Spark context is
    active and its class loader finds [EvaluatePython] with a method
    named [registerPicklers]. *)
Definition host_ready (w : world) : bool :=
  _active_spark_context w
  && match jvm_EvaluatePython w with
     | Some methods =>
         match Shape.find_wmethod methods with
         | Some _ => true
         | None => false
         end
     | None => false
     end.

(** The state after one registration. *)
Definition registered (w : world) : world :=
  mkWorld true (_active_spark_context w) (jvm_EvaluatePython w)
    (S (jvm_registrations w)) (stdout w).

(** The class name of a variant. *)
Definition variant_name (v : variant) : string :=
  match v with
  | VPoint => "Point"
  | VPolygon => "Polygon"
  | VPolyLine => "PolyLine"
  end.

(** The codec class of a variant, its module and its Scala name. *)
Definition codec_class (v : variant) : shape_class :=
  match v with
  | VPoint => CPointUDT
  | VPolygon => CPolygonUDT
  | VPolyLine => CPolyLineUDT
  end.

Definition codec_module (v : variant) : string :=
  match v with
  | VPoint => PointUDT.module
  | VPolygon => PolygonUDT.module
  | VPolyLine => PolyLineUDT.module
  end.

Definition codec_scalaUDT (v : variant) : string :=
  match v with
  | VPoint => PointUDT.scalaUDT
  | VPolygon => PolygonUDT.scalaUDT
  | VPolyLine => PolyLineUDT.scalaUDT
  end.

(** The qualified name [<module>.<ClassName>] of a codec class. *)
Definition pyClass_of (v : variant) : string :=
  codec_module v ++ "." ++ class_name (codec_class v).

(** The qualified name of a variant on the engine's side. *)
Definition engine_name (v : variant) : string := "magellan." ++ variant_name v.

(** The state with another standard output. *)
Definition with_stdout (w : world) (out : list pyval) : world :=
  mkWorld (__initialized__ w) (_active_spark_context w)
    (jvm_EvaluatePython w) (jvm_registrations w) out.

(** A computation whose outcome does not depend on the state and which
    changes at most the standard output. *)
Definition quiet {A} (c : M A) : Prop :=
  exists r : result A, forall w, exists out, c w = (r, with_stdout w out).

(** A JSON point object: a mapping with an ["x"] and a ["y"]. *)
Definition json_point (j : pyval) : Prop :=
  exists x y, py_getitem j "x" = Ok x /\ py_getitem j "y" = Ok y.

(** A name without a dot, as a class name is. *)
Fixpoint no_dot (s : string) : bool :=
  match s with
  | EmptyString => true
  | String c s' => negb (Ascii.eqb c "."%char) && no_dot s'
  end.

(** A formatter for examples without floats and without quoted
    strings. *)
Definition sample_formatter : Formatter :=
  {| float_str := fun _ => "0.0";
     float_repr := fun _ => "0.0";
     str_repr := fun s => "'" ++ s ++ "'" |}.




Definition sample_parsed : pyval :=
  PDict [("pyClass", PStr "magellan.types.PolygonUDT");
         ("indices", PList [PInt 0]);
         ("points", PList [PDict [("x", PInt 1); ("y", PInt 2)];
                           PDict [("x", PInt 3); ("y", PInt 4)]])].


(* ================================================================= *)
(** ** Further vocabulary: constructors, calls and the static registry *)

(** Calling the class of a variant on positional arguments, and the
    value its [__reduce__] returns. *)
Definition construct (v : variant) : list pyval -> result pyval :=
  match v with
  | VPoint => Point.__init__
  | VPolygon => Polygon.__init__
  | VPolyLine => PolyLine.__init__
  end.

Definition reduce (v : variant) : pyval -> pyval :=
  match v with
  | VPoint => Point.__reduce__
  | VPolygon => Polygon.__reduce__
  | VPolyLine => PolyLine.__reduce__
  end.

(** The two keys a [fromJson] reads, in the order it reads them. *)
Definition first_key (c : shape_class) : string :=
  match c with
  | CPointUDT | CPoint => "x"
  | _ => "indices"
  end.

Definition second_key (c : shape_class) : string :=
  match c with
  | CPointUDT | CPoint => "y"
  | _ => "points"
  end.

(** The shape a class with a [fromJson] rebuilds. *)
Definition class_variant (c : shape_class) : variant :=
  match c with
  | CPointUDT | CPoint => VPoint
  | CPolygonUDT | CPolygon => VPolygon
  | CPolyLineUDT | CPolyLine => VPolyLine
  end.

(** The engine-datum triple with the coordinates of a JSON point
    object ([None] for one that is absent). *)
Definition json_to_triple (j : pyval) : pyval :=
  PTuple [PInt 1;
          match py_getitem j "x" with Ok x => x | Raise _ => PNone end;
          match py_getitem j "y" with Ok y => y | Raise _ => PNone end].

(** The engine datum with the content of a JSON object of a variant:
    the triple of a point object, or the variant's tag, the indices
    and the triples of the point objects. *)
Definition json_to_datum (v : variant) (json : pyval) : pyval :=
  match v with
  | VPoint => json_to_triple json
  | VPolygon | VPolyLine =>
      PTuple [PInt (discriminant v);
              match py_getitem json "indices" with
              | Ok indices => indices
              | Raise _ => PNone
              end;
              PList match py_getitem json "points" with
                    | Ok field =>
                        match py_iter field with
                        | Ok items => map json_to_triple items
                        | Raise _ => []
                        end
                    | Raise _ => []
                    end]
  end.

(** A call of one of the operations of the module, and what can happen
    in a process: such a call, whose outcome the caller may catch, or a
    change of the host (a context started or stopped, a class path
    changed). *)
Inductive call :=
| CallSerialize (v : variant) (obj : pyval)
| CallDeserialize (v : variant) (datum : pyval)
| CallFromJson (c : shape_class) (json : pyval)
| CallJsonValue (v : variant) (self : pyval)
| CallRegisterPicklers (self : pyval).

Inductive event :=
| Call (c : call)
| HostChange (context : bool) (methods : option (list string)).

Definition after_call `{Formatter} (c : call) (w : world) : world :=
  match c with
  | CallSerialize v obj => snd (serialize v obj w)
  | CallDeserialize v datum => snd (deserialize v datum w)
  | CallFromJson c json => snd (class_fromJson c json w)
  | CallJsonValue v self => snd (jsonValue v self w)
  | CallRegisterPicklers self => snd (Shape.registerPicklers self w)
  end.

Definition after_event `{Formatter} (w : world) (e : event) : world :=
  match e with
  | Call c => after_call c w
  | HostChange context methods =>
      mkWorld (__initialized__ w) context methods (jvm_registrations w)
        (stdout w)
  end.

Definition after_events `{Formatter} (es : list event) (w : world) : world :=
  fold_left after_event es w.

(** The table a static registry would hold: the qualified names of the
    six classes of this module. *)
Definition registry (shapeType : string) : option shape_class :=
  find (fun c => String.eqb shapeType ("magellan.types." ++ class_name c))
       [CPointUDT; CPoint; CPolygonUDT; CPolygon; CPolyLineUDT; CPolyLine].

(** A host whose parser returns the self-description of a polygon for
    one text, for examples. *)
Definition description_host : Host :=
  {| json_loads := fun s =>
       if String.eqb s "polygon description" then
         Ok (PDict [("type", PStr "udt");
                    ("pyClass", PStr "magellan.types.PolygonUDT");
                    ("class", PStr "magellan.Polygon");
                    ("sqlType", PStr "magellan.Polygon")])
       else if String.eqb s "bare name" then
         Ok (PDict [("pyClass", PStr "PointUDT")])
       else if String.eqb s "shape class" then
         Ok (PDict [("pyClass", PStr "magellan.types.Point");
                    ("x", PInt 1); ("y", PInt 2)])
       else if String.eqb s "no class" then Ok (PDict [("x", PInt 1)])
       else if String.eqb s "array" then Ok (PList [])
       else Raise (Exn ValueError Interpreter);
     foreign_fromJson := fun module shapeClass _ =>
       raise (Exn ImportError (Text (module ++ "/" ++ shapeClass))) |}.

(** A point object and the point [PointUDT.fromJson] rebuilds. *)
Definition rebuilds (j p : pyval) : Prop :=
  exists x y, py_getitem j "x" = Ok x /\ py_getitem j "y" = Ok y
              /\ p = PPoint x y.

(** One step either leaves the flag and the count of registrations
    alone, or sets the flag and counts one registration. *)
Definition registration_step (w w' : world) : Prop :=
  (__initialized__ w' = __initialized__ w
   /\ jvm_registrations w' = jvm_registrations w)
  \/ (__initialized__ w = false /\ __initialized__ w' = true
      /\ jvm_registrations w' = S (jvm_registrations w)).

(** A polygon whose indices are not a sequence: it can be built, since
    no constructor checks its arguments, but it cannot be rendered. *)
Definition polygon_without_indices : pyval := PPolygon (PInt 0) (PList []).

(** The text of the exception [serialize] raises for an object with
    the [repr] [r]. *)
Definition cannot_serialize (r : string) (obj : pyval) : exn :=
  Exn TypeError
    (Text ("cannot serialize " ++ r ++ " of type " ++ type_repr (py_type obj))).

(* ================================================================= *)
(** ** Laws of the monad and purity of its building blocks *)

Lemma pure_ret {A} (a : A) : pure (ret a).
Proof. exists (Ok a). reflexivity. Qed.

Lemma pure_raise {A} (e : exn) : pure (@raise A e).
Proof. exists (Raise e). reflexivity. Qed.

Lemma pure_lift {A} (r : result A) : pure (lift r).
Proof. exists r. reflexivity. Qed.

Lemma pure_assert (cond : bool) (msg : message) : pure (py_assert cond msg).
Proof. unfold py_assert. destruct cond; [apply pure_ret | apply pure_raise]. Qed.

Lemma pure_bind {A B} (c : M A) (k : A -> M B) :
  pure c -> (forall a, pure (k a)) -> pure (bind c k).
Proof.
  intros [r Hc] Hk. destruct r as [a | e].
  - destruct (Hk a) as [r' Hr']. exists r'. intro w.
    unfold bind. rewrite Hc. apply Hr'.
  - exists (Raise e). intro w. unfold bind. rewrite Hc. reflexivity.
Qed.

Lemma pure_mapM {A B} (f : A -> M B) (xs : list A) :
  (forall x, pure (f x)) -> pure (mapM f xs).
Proof.
  intro Hf. induction xs as [| x xs IH]; simpl.
  - apply pure_ret.
  - apply pure_bind; [apply Hf | intro y].
    apply pure_bind; [exact IH | intro ys]. apply pure_ret.
Qed.

Create HintDb purity.
#[local] Hint Resolve pure_ret pure_raise pure_lift pure_assert : purity.

Ltac pure_steps :=
  repeat first
    [ apply pure_bind; [| intro]
    | apply pure_mapM; intro
    | solve [auto with purity] ].

Lemma bind_ok {A B} (c : M A) (k : A -> M B) (a : A) (w w' : world) :
  c w = (Ok a, w') -> bind c k w = k a w'.
Proof. intro H. unfold bind. rewrite H. reflexivity. Qed.

Lemma bind_raise {A B} (c : M A) (k : A -> M B) (e : exn) (w w' : world) :
  c w = (Raise e, w') -> bind c k w = (Raise e, w').
Proof. intro H. unfold bind. rewrite H. reflexivity. Qed.

Lemma pure_outcome {A} (c : M A) (w w' : world) (r : result A) :
  pure c -> c w = (r, w') -> w' = w /\ forall w0, c w0 = (r, w0).
Proof.
  intros [r0 Hc] H. rewrite Hc in H. injection H as -> ->.
  split; [reflexivity | exact Hc].
Qed.

Lemma quiet_of_pure {A} (c : M A) : pure c -> quiet c.
Proof.
  intros [r Hc]. exists r. intro w. exists (stdout w).
  rewrite Hc. destruct w; reflexivity.
Qed.

Lemma quiet_bind {A B} (c : M A) (k : A -> M B) :
  quiet c -> (forall a, quiet (k a)) -> quiet (bind c k).
Proof.
  intros [r Hc] Hk. destruct r as [a | e].
  - destruct (Hk a) as [r' Hr']. exists r'. intro w.
    destruct (Hc w) as [out Hout].
    destruct (Hr' (with_stdout w out)) as [out' Hout'].
    exists out'. unfold bind. rewrite Hout, Hout'. reflexivity.
  - exists (Raise e). intro w. destruct (Hc w) as [out Hout].
    exists out. unfold bind. rewrite Hout. reflexivity.
Qed.

(** What [print] does: nothing but raise when the object has no text,
    and otherwise add the object to the output. *)
Lemma py_print_raises `{Formatter} (obj : pyval) (e : exn) (w : world) :
  py_str obj = Raise e -> py_print obj w = (Raise e, w).
Proof. intro H0. unfold py_print, bind, lift. rewrite H0. reflexivity. Qed.

Lemma py_print_writes `{Formatter} (obj : pyval) (s : string) (w : world) :
  py_str obj = Ok s ->
  py_print obj w = (Ok tt, with_stdout w (stdout w ++ [obj])%list).
Proof. intro H0. unfold py_print, bind, lift. rewrite H0. reflexivity. Qed.

Lemma quiet_print `{Formatter} (obj : pyval) : quiet (py_print obj).
Proof.
  destruct (py_str obj) as [s | e] eqn:Hs.
  - exists (Ok tt). intro w. exists (stdout w ++ [obj])%list.
    apply (py_print_writes obj s w Hs).
  - exists (Raise e). intro w. exists (stdout w).
    rewrite (py_print_raises obj e w Hs). destruct w; reflexivity.
Qed.

(* ================================================================= *)
(** ** Facts about [==] *)

(** For numbers it makes no difference whether the operands are one
    object. *)
Lemma py_cmp_numbers (same : bool) (a b : pyval) (n m : number) :
  as_number a = Some n -> as_number b = Some m ->
  py_cmp same a b = number_eq n m.
Proof.
  intros Ha Hb. destruct a; simpl in Ha; try discriminate Ha;
    destruct b; simpl in Hb; try discriminate Hb;
    injection Ha as <-; injection Hb as <-; reflexivity.
Qed.

Lemma py_eq_numbers (a b : pyval) (n m : number) :
  as_number a = Some n -> as_number b = Some m ->
  py_eq a b = number_eq n m.
Proof. apply py_cmp_numbers. Qed.

(** A container compared with itself is equal, whatever it holds. *)
Lemma py_cmp_same_container (a : pyval) :
  py_type a = TTuple \/ py_type a = TList \/ py_type a = TDict ->
  py_cmp true a a = true.
Proof.
  destruct a; simpl; intros [H | [H | H]]; try discriminate H; reflexivity.
Qed.

(** [==] on a point is [Point.__eq__]. *)
Lemma py_eq_Point (x y other : pyval) :
  py_eq (PPoint x y) other = Point.__eq__ (PPoint x y) other.
Proof.
  unfold Point.__eq__, py_eq. destruct other; reflexivity.
Qed.

(** A float equals itself unless it is a NaN. *)
Lemma float_self_eq (f : spec_float) :
  py_eq (PFloat f) (PFloat f) = true <-> f <> S754_nan.
Proof.
  unfold py_eq. simpl. unfold SFeqb. split.
  - intros H ->. discriminate H.
  - intro Hn. destruct f as [s | s | | s m e]; try reflexivity.
    + destruct s; reflexivity.
    + contradiction.
    + simpl. rewrite Z.compare_refl.
      assert (Hm : Pos.compare_cont Eq m m = Eq) by apply Pos.compare_refl.
      destruct s; rewrite Hm; reflexivity.
Qed.

Lemma int_self_eq (z : Z) : py_eq (PInt z) (PInt z) = true.
Proof. unfold py_eq. simpl. apply Z.eqb_refl. Qed.

Lemma SFeqb_refl_iff (f : spec_float) : SFeqb f f = true <-> f <> S754_nan.
Proof. apply (float_self_eq f). Qed.

Lemma number_self_eq (x : pyval) (n : number) :
  as_number x = Some n ->
  (py_eq x x = true <-> n <> NFloat S754_nan).
Proof.
  intro Hx. rewrite (py_eq_numbers x x n n Hx Hx).
  destruct n as [z | f]; simpl.
  - split; [discriminate | intros _; apply Z.eqb_refl].
  - rewrite SFeqb_refl_iff. split; intros Hn Hc; apply Hn; congruence.
Qed.

Lemma SFeqb_sym (f g : spec_float) : SFeqb f g = SFeqb g f.
Proof.
  unfold SFeqb.
  destruct f as [s | s | | s m e], g as [s' | s' | | s' m' e'];
    try reflexivity; simpl;
    try (destruct s, s'; reflexivity); try (destruct s; reflexivity);
    try (destruct s'; reflexivity).
  change (Pos.compare_cont Eq m m') with (Pos.compare m m').
  change (Pos.compare_cont Eq m' m) with (Pos.compare m' m).
  destruct s, s'; try reflexivity;
    destruct (Z.compare_spec e e'), (Z.compare_spec e' e);
    try lia; try reflexivity;
    destruct (Pos.compare_spec m m'), (Pos.compare_spec m' m);
    try lia; reflexivity.
Qed.

Lemma number_eq_sym (n m : number) : number_eq n m = number_eq m n.
Proof.
  destruct n, m; simpl; try reflexivity.
  - apply Z.eqb_sym.
  - apply SFeqb_sym.
Qed.

Lemma pow2_pos (k : Z) : (0 <= k -> 0 < 2 ^ k)%Z.
Proof. intro Hk. apply Z.pow_pos_nonneg; lia. Qed.

Lemma int_float_eq_unique (a b : Z) (f : spec_float) :
  int_float_eq a f = true -> int_float_eq b f = true -> a = b.
Proof.
  unfold int_float_eq. destruct f as [s | s | | s m e]; try discriminate.
  - intros Ha Hb. apply Z.eqb_eq in Ha, Hb. lia.
  - destruct (0 <=? e)%Z eqn:He; intros Ha Hb; apply Z.eqb_eq in Ha, Hb.
    + lia.
    + apply Z.leb_gt in He.
      assert (Hp : (0 < 2 ^ (- e))%Z) by (apply pow2_pos; lia).
      rewrite <- Hb in Ha. apply Z.mul_reg_r in Ha; lia.
Qed.

(** A value equals at most one integer. *)
Lemma tag_unique (t : pyval) (a b : Z) :
  py_eq t (PInt a) = true -> py_eq t (PInt b) = true -> a = b.
Proof.
  unfold py_eq. destruct t; simpl; try discriminate.
  - intros Ha Hb. apply Z.eqb_eq in Ha, Hb. lia.
  - intros Ha Hb. apply Z.eqb_eq in Ha, Hb. lia.
  - intros Ha Hb. apply Z.eqb_eq in Ha, Hb. lia.
  - apply int_float_eq_unique.
Qed.

(* ================================================================= *)
(** ** Facts about [str] and [repr] *)

Lemma append_assoc (a b c : string) : (a ++ b) ++ c = a ++ (b ++ c).
Proof. induction a as [| ch a IH]; simpl; [| rewrite IH]; reflexivity. Qed.

Lemma concat_pair (sep a b : string) :
  String.concat sep [a; b] = a ++ sep ++ b.
Proof. reflexivity. Qed.

Lemma mapR_map {A B C} (f : B -> result C) (g : A -> B) (h : A -> C)
  (xs : list A) :
  (forall x, f (g x) = Ok (h x)) -> mapR f (map g xs) = Ok (map h xs).
Proof.
  intro Hfg. induction xs as [| x xs IH]; simpl.
  - reflexivity.
  - rewrite Hfg; simpl. fold (mapR f). rewrite IH. reflexivity.
Qed.

(** [str_items] is the comprehension [[str(i) for i in obj]]. *)
Lemma str_items_comprehension `{Formatter} (obj : pyval) :
  str_items py_str obj = (let? items := py_iter obj in mapR py_str items).
Proof.
  destruct obj; try reflexivity; simpl; symmetry.
  - apply mapR_map. reflexivity.
  - rewrite <- (map_map (fun kv : string * pyval => fst kv) PStr).
    rewrite (mapR_map py_str PStr (fun k => k)); [| reflexivity].
    rewrite map_id. reflexivity.
Qed.

(** [str] of a shape is its [__str__]. *)
Lemma py_str_shape `{Formatter} (a b : pyval) :
  py_str (PPoint a b) = Point.__str__ (PPoint a b)
  /\ py_str (PPolygon a b) = Polygon.__str__ (PPolygon a b)
  /\ py_str (PPolyLine a b) = PolyLine.__str__ (PPolyLine a b).
Proof. repeat split. Qed.

Lemma py_iter_fails (v : pyval) :
  (forall l, py_iter v <> Ok l) -> py_iter v = Raise (Exn TypeError Interpreter).
Proof.
  intro H. destruct v; try reflexivity; exfalso; eapply H; reflexivity.
Qed.

(** The polygon without indices has no text, neither on its own nor as
    the second element of a triple. *)
Lemma polygon_without_indices_unprintable `{Formatter} (r : bool) :
  py_render r polygon_without_indices = Raise (Exn TypeError Interpreter)
  /\ forall tag field,
      as_number tag <> None ->
      py_str (PTuple [tag; polygon_without_indices; field])
      = Raise (Exn TypeError Interpreter).
Proof.
  split; [reflexivity |]. intros tag field Htag.
  destruct tag; try (exfalso; apply Htag; reflexivity); reflexivity.
Qed.

(* ================================================================= *)
(** ** Decoding points *)

Lemma PointUDT_deserialize_pure (datum : pyval) :
  pure (PointUDT.deserialize datum).
Proof.
  unfold PointUDT.deserialize.
  destruct (isinstance datum TPoint); pure_steps.
Qed.

(** The triple [(tag, x, y)] whose tag equals 1 decodes to [Point(x, y)],
    whatever [x] and [y] are. *)
Lemma PointUDT_deserialize_triple (tag x y : pyval) (w : world) :
  py_eq tag (PInt 1) = true ->
  PointUDT.deserialize (PTuple [tag; x; y]) w = (Ok (PPoint x y), w).
Proof.
  intro Htag. unfold PointUDT.deserialize, bind, lift, py_assert; simpl.
  rewrite Htag. reflexivity.
Qed.

Lemma PointUDT_deserialize_native (x y : pyval) (w : world) :
  PointUDT.deserialize (PPoint x y) w = (Ok (PPoint x y), w).
Proof. reflexivity. Qed.

Lemma mapM_deserialize (ds ps : list pyval) (w : world) :
  Forall2 decodes_to ds ps ->
  mapM PointUDT.deserialize ds w = (Ok ps, w).
Proof.
  induction 1 as [| d p ds ps Hd _ IH]; simpl.
  - reflexivity.
  - rewrite (bind_ok _ _ p w w (Hd w)).
    rewrite (bind_ok _ _ ps w w IH). reflexivity.
Qed.

Lemma Forall2_nth_error {A B} (R : A -> B -> Prop) (xs : list A) (ys : list B) :
  Forall2 R xs ys ->
  forall i x, nth_error xs i = Some x ->
              exists y, nth_error ys i = Some y /\ R x y.
Proof.
  induction 1 as [| x0 y0 xs ys Hxy _ IH]; intros i x Hi.
  - destruct i; discriminate Hi.
  - destruct i as [| i]; simpl in Hi.
    + injection Hi as <-. exists y0. split; [reflexivity | exact Hxy].
    + apply (IH i x Hi).
Qed.

(** Claim C1, as stated, fails: a point with a NaN coordinate decodes to a
    point with the very same coordinates, and yet [Point.__eq__] says
    the two differ. *)
Lemma C1_counterexample_nan :
  let p := PPoint (PFloat S754_nan) (PFloat (S754_zero false)) in
  PointUDT.deserialize (point_triple p) fresh_process = (Ok p, fresh_process)
  /\ Point.__eq__ p p = false.
Proof. split; reflexivity. Qed.

(** Claim C1, amended: the triple [(1, x, y)] of a point decodes, for
    every [x] and [y], to a point whose coordinates are exactly [x] and
    [y]; when the coordinates are numbers, that point equals the
    original under [Point.__eq__] if and only if neither of them is
    NaN. *)
Theorem C1_point_roundtrip (x y : pyval) (w : world) :
  exists q,
    PointUDT.deserialize (point_triple (PPoint x y)) w = (Ok q, w)
    /\ Point.x q = x /\ Point.y q = y
    /\ forall n m,
        as_number x = Some n -> as_number y = Some m ->
        (Point.__eq__ q (PPoint x y) = true
         <-> n <> NFloat S754_nan /\ m <> NFloat S754_nan).
Proof.
  exists (PPoint x y). split.
  - apply PointUDT_deserialize_triple. reflexivity.
  - split; [reflexivity |]. split; [reflexivity |].
    intros n m Hx Hy. unfold Point.__eq__.
    cbn [isinstance py_type pytype_beq Point.x Point.y andb].
    rewrite andb_true_iff, (number_self_eq x n Hx), (number_self_eq y m Hy).
    reflexivity.
Qed.

Lemma C1_point_roundtrip_witness :
  exists q,
    PointUDT.deserialize
      (point_triple (PPoint (PFloat float_1_75) (PInt 3)))
      fresh_process = (Ok q, fresh_process)
    /\ Point.x q = PFloat float_1_75 /\ Point.y q = PInt 3
    /\ Point.__eq__ q (PPoint (PFloat float_1_75) (PInt 3)) = true.
Proof.
  destruct (C1_point_roundtrip (PFloat float_1_75) (PInt 3) fresh_process)
    as [q [Hq [Hx [Hy Heq]]]].
  exists q. repeat split; try assumption.
  apply (proj2 (Heq (NFloat float_1_75) (NInt 3) eq_refl eq_refl)).
  split; discriminate.
Defined.

(* ================================================================= *)
(** ** Decoding polygons and polylines *)

Lemma PolygonUDT_deserialize_triple
  (tag indices : pyval) (ds ps : list pyval) (w : world) :
  py_eq tag (PInt 5) = true ->
  Forall2 decodes_to ds ps ->
  PolygonUDT.deserialize (PTuple [tag; indices; PList ds]) w
  = (Ok (PPolygon indices (PList ps)), w).
Proof.
  intros Htag Hds.
  unfold PolygonUDT.deserialize, bind, lift, py_assert; simpl.
  rewrite Htag. unfold ret at 1.
  rewrite (mapM_deserialize ds ps w Hds). reflexivity.
Qed.

(** The PolyLine codec decodes as the Polygon codec does, provided the
    triple has a text for its [print]. *)
Lemma PolyLineUDT_deserialize_triple `{Formatter}
  (tag indices : pyval) (ds ps : list pyval) (text : string) (w : world) :
  py_eq tag (PInt 3) = true ->
  Forall2 decodes_to ds ps ->
  py_str (PTuple [tag; indices; PList ds]) = Ok text ->
  PolyLineUDT.deserialize (PTuple [tag; indices; PList ds]) w
  = (Ok (PPolyLine indices (PList ps)),
     with_stdout w (stdout w ++ [PTuple [tag; indices; PList ds]])%list).
Proof.
  intros Htag Hds Htext.
  unfold PolyLineUDT.deserialize.
  cbn [isinstance py_type pytype_beq].
  unfold bind at 1. unfold lift at 1. cbn [py_len List.length].
  unfold bind at 1. cbn [Nat.eqb py_assert ret].
  unfold bind at 1. rewrite (py_print_writes _ text w Htext).
  unfold bind, lift, py_assert; simpl.
  rewrite Htag. unfold ret at 1.
  rewrite (mapM_deserialize ds ps _ Hds). reflexivity.
Qed.

(** A list of data the Point codec decodes has a list of decoded
    points. *)
Lemma decodable_list (ds : list pyval) :
  Forall (fun d => exists p, decodes_to d p) ds ->
  exists ps, Forall2 decodes_to ds ps.
Proof.
  induction 1 as [| d ds [p Hp] _ [ps IH]].
  - exists []. constructor.
  - exists (p :: ps). constructor; assumption.
Qed.

Lemma point_triple_decodes (x y : pyval) :
  decodes_to (PTuple [PInt 1; x; y]) (PPoint x y).
Proof. intro w. apply PointUDT_deserialize_triple. reflexivity. Qed.

Lemma native_point_decodes (x y : pyval) :
  decodes_to (PPoint x y) (PPoint x y).
Proof. intro w. apply PointUDT_deserialize_native. Qed.



(* ================================================================= *)
(** ** What the codecs reject *)

Lemma deserialize_wrong_arity `{Formatter}
  (v : variant) (datum : pyval) (n : nat) (w : world) :
  isinstance datum (native v) = false ->
  py_len datum = Ok n -> n <> 3 ->
  deserialize v datum w = (Raise (Exn AssertionError (arity_message v n)), w).
Proof.
  intros Hinst Hlen Hn.
  apply Nat.eqb_neq in Hn.
  destruct v; simpl in *;
    unfold PointUDT.deserialize, PolygonUDT.deserialize,
      PolyLineUDT.deserialize, bind, lift, py_assert;
    rewrite Hinst, Hlen, Hn; reflexivity.
Qed.

(** The tag assertion is reached by the Point and the Polygon codec on
    every triple, and by the PolyLine codec on every triple that has a
    text. *)
Lemma deserialize_wrong_tag `{Formatter}
  (v : variant) (datum tpe : pyval) (w : world) :
  isinstance datum (native v) = false ->
  py_len datum = Ok 3 -> py_index datum 0 = Ok tpe ->
  py_eq tpe (PInt (discriminant v)) = false ->
  (v = VPolyLine -> exists text, py_str datum = Ok text) ->
  exists w',
    deserialize v datum w = (Raise (Exn AssertionError (tag_message v)), w').
Proof.
  intros Hinst Hlen Hidx Htag Htext.
  unfold discriminant, Point._shape_type, Polygon._shape_type,
    PolyLine._shape_type in Htag.
  destruct v; simpl in *.
  - exists w. unfold PointUDT.deserialize, bind, lift, py_assert.
    rewrite Hinst, Hlen; simpl; rewrite Hidx, Htag; reflexivity.
  - exists w. unfold PolygonUDT.deserialize, bind, lift, py_assert.
    rewrite Hinst, Hlen; simpl; rewrite Hidx, Htag; reflexivity.
  - destruct (Htext eq_refl) as [text Ht]. eexists.
    unfold PolyLineUDT.deserialize. rewrite Hinst.
    unfold bind at 1. unfold lift at 1. rewrite Hlen.
    unfold bind at 1. cbn [Nat.eqb py_assert ret].
    unfold bind at 1. rewrite (py_print_writes _ text w Ht).
    unfold bind, lift, py_assert. rewrite Hidx, Htag. reflexivity.
Qed.



(** Claim C4, as stated, fails: for an object that is not a point and
    whose [repr] raises, the exception of [PointUDT.serialize] is the
    one of the failed rendering; it names neither the object nor its
    type. *)
Lemma C4_counterexample_no_repr :
  @PointUDT.serialize sample_formatter polygon_without_indices fresh_process
  = (Raise (Exn TypeError Interpreter), fresh_process)
  /\ forall r,
      Exn TypeError Interpreter <> cannot_serialize r polygon_without_indices.
Proof. split; [reflexivity | intros r H; discriminate H]. Qed.

(** Claim C4, amended: [serialize] hands back its argument when it is a
    native entity of the codec, and never returns anything else.  On
    any other argument it raises: the type error with the text
    ["cannot serialize <repr> of type <repr of the type>"] when the
    argument has a [repr], and the exception of [repr] when it has
    none. *)
Theorem C4_serialize_passthrough `{Formatter}
  (v : variant) (obj : pyval) (w : world) :
  (isinstance obj (native v) = true -> serialize v obj w = (Ok obj, w))
  /\ (isinstance obj (native v) = false ->
      forall r, py_repr obj = Ok r ->
                serialize v obj w = (Raise (cannot_serialize r obj), w))
  /\ (isinstance obj (native v) = false ->
      forall e, py_repr obj = Raise e -> serialize v obj w = (Raise e, w))
  /\ (forall r w', serialize v obj w = (Ok r, w') -> r = obj).
Proof.
  destruct v; simpl;
    unfold PointUDT.serialize, PolygonUDT.serialize, PolyLineUDT.serialize,
      raise_cannot_serialize, bind, lift, raise, ret;
    match goal with
    | |- context [isinstance obj ?t] => destruct (isinstance obj t)
    end;
    (split; [| split; [| split]]);
    try discriminate; try reflexivity;
    try (intros _ r Hr; rewrite Hr; reflexivity);
    try (intros r w' Hr; injection Hr as <- _; reflexivity);
    intros r w' Hr; destruct (py_repr obj); discriminate Hr.
Qed.

Lemma C4_serialize_passthrough_witness :
  @PolygonUDT.serialize sample_formatter
    (PPolygon (PList []) (PList [])) fresh_process
  = (Ok (PPolygon (PList []) (PList [])), fresh_process)
  /\ @PointUDT.serialize sample_formatter (PStr "not a point") fresh_process
     = (Raise (Exn TypeError
                 (Text "cannot serialize 'not a point' of type <type 'str'>")),
        fresh_process)
  /\ @PointUDT.serialize sample_formatter
       (PList [polygon_without_indices]) fresh_process
     = (Raise (Exn TypeError Interpreter), fresh_process).
Proof.
  split; [| split].
  - apply (proj1 (@C4_serialize_passthrough sample_formatter VPolygon
                    (PPolygon (PList []) (PList [])) fresh_process)).
    reflexivity.
  - apply (proj1 (proj2 (@C4_serialize_passthrough sample_formatter VPoint
                           (PStr "not a point") fresh_process)) eq_refl
             "'not a point'").
    reflexivity.
  - apply (proj1 (proj2 (proj2 (@C4_serialize_passthrough sample_formatter
                                  VPoint (PList [polygon_without_indices])
                                  fresh_process))) eq_refl).
    reflexivity.
Defined.

(* ================================================================= *)
(** ** The registration hook *)

Lemma registerPicklers_first (self : pyval) (w : world) :
  __initialized__ w = false -> host_ready w = true ->
  Shape.registerPicklers self w = (Ok tt, registered w).
Proof.
  destruct w as [flag ctx cls regs out]. unfold host_ready; simpl.
  intros -> Hready. apply andb_true_iff in Hready as [-> Hcls].
  unfold Shape.registerPicklers, bind, get; simpl.
  destruct cls as [methods |]; [| discriminate].
  destruct (Shape.find_wmethod methods); [| discriminate].
  reflexivity.
Qed.

Lemma registerPicklers_again (self : pyval) (w : world) :
  __initialized__ w = true ->
  Shape.registerPicklers self w = (Ok tt, w).
Proof.
  intro Hflag. unfold Shape.registerPicklers, bind, get.
  rewrite Hflag. reflexivity.
Qed.

Lemma registerPicklers_repeat (selfs : list pyval) (w : world) :
  __initialized__ w = true ->
  mapM Shape.registerPicklers selfs w
  = (Ok (repeat tt (List.length selfs)), w).
Proof.
  intro Hflag. induction selfs as [| self selfs IH]; simpl.
  - reflexivity.
  - rewrite (bind_ok _ _ tt w w (registerPicklers_again self w Hflag)).
    rewrite (bind_ok _ _ _ w w IH). reflexivity.
Qed.

(** Claim C9: [N > 1] invocations of the hook, on whatever shapes, in a
    process that has not registered yet and whose host can, all return
    and leave exactly one registration behind: the first invocation
    performs it and sets the flag, and an invocation that finds the
    flag set changes nothing. *)
Theorem C9_registration_once (selfs : list pyval) (w : world) :
  1 < List.length selfs ->
  __initialized__ w = false -> host_ready w = true ->
  (exists w',
     mapM Shape.registerPicklers selfs w
     = (Ok (repeat tt (List.length selfs)), w')
     /\ jvm_registrations w' = S (jvm_registrations w)
     /\ __initialized__ w' = true)
  /\ (forall self, exists w1,
        Shape.registerPicklers self w = (Ok tt, w1)
        /\ jvm_registrations w1 = S (jvm_registrations w)
        /\ __initialized__ w1 = true)
  /\ (forall self w2,
        __initialized__ w2 = true ->
        Shape.registerPicklers self w2 = (Ok tt, w2)).
Proof.
  intros Hn Hflag Hready. split; [| split].
  - destruct selfs as [| self selfs]; [simpl in Hn; lia |].
    exists (registered w). split; [| split; reflexivity].
    cbn [mapM List.length repeat].
    rewrite (bind_ok _ _ tt w (registered w)
               (registerPicklers_first self w Hflag Hready)).
    rewrite (bind_ok _ _ _ (registered w) (registered w)
               (registerPicklers_repeat selfs (registered w) eq_refl)).
    reflexivity.
  - intro self. exists (registered w). split; [| split; reflexivity].
    apply registerPicklers_first; assumption.
  - intros self w2. apply registerPicklers_again.
Qed.

Lemma C9_registration_once_witness :
  exists w',
    mapM Shape.registerPicklers
      [PPoint (PInt 0) (PInt 0); PPolygon (PList []) (PList []);
       PPolyLine (PList []) (PList [])] fresh_process
    = (Ok [tt; tt; tt], w')
    /\ jvm_registrations w' = 1
    /\ __initialized__ w' = true.
Proof.
  apply (proj1 (C9_registration_once
                  [PPoint (PInt 0) (PInt 0); PPolygon (PList []) (PList []);
                   PPolyLine (PList []) (PList [])] fresh_process
                  ltac:(simpl; lia) eq_refl eq_refl)).
Defined.

(* ================================================================= *)
(** ** jsonValue *)

(** Claim C5, where the code departs from it: the mapping of
    [Point.jsonValue] has the Scala name of the codec under ["class"]
    and the name of the shape under ["sqlType"], two different names,
    while [Polygon.jsonValue] and [PolyLine.jsonValue] have one name
    under both keys. *)
Theorem C5_point_class_differs_from_sqlType :
  (exists d w',
     Point.jsonValue (PPoint (PInt 0) (PInt 0)) fresh_process = (Ok d, w')
     /\ py_getitem d "class" = Ok (PStr "magellan.PointUDT")
     /\ py_getitem d "sqlType" = Ok (PStr "magellan.Point")
     /\ py_getitem d "class" <> py_getitem d "sqlType")
  /\ (exists d w',
        Polygon.jsonValue (PPolygon (PList []) (PList [])) fresh_process
        = (Ok d, w')
        /\ py_getitem d "class" = Ok (PStr "magellan.Polygon")
        /\ py_getitem d "sqlType" = Ok (PStr "magellan.Polygon"))
  /\ (exists d w',
        PolyLine.jsonValue (PPolyLine (PList []) (PList [])) fresh_process
        = (Ok d, w')
        /\ py_getitem d "class" = Ok (PStr "magellan.PolyLine")
        /\ py_getitem d "sqlType" = Ok (PStr "magellan.PolyLine")).
Proof.
  split; [| split].
  - do 2 eexists. split; [reflexivity |].
    split; [reflexivity |]. split; [reflexivity | discriminate].
  - do 2 eexists. split; [reflexivity |]. split; reflexivity.
  - do 2 eexists. split; [reflexivity |]. split; reflexivity.
Qed.

(** The mapping every successful [jsonValue] of a variant returns. *)
Lemma jsonValue_inv (v : variant) (self d : pyval) (w w' : world) :
  jsonValue v self w = (Ok d, w') ->
  d = PDict [("type", PStr "udt");
             ("pyClass", PStr (pyClass_of v));
             ("class", PStr match v with
                            | VPoint => "magellan.PointUDT"
                            | _ => engine_name v
                            end);
             ("sqlType", PStr (engine_name v))].
Proof.
  destruct v; simpl;
    unfold Point.jsonValue, Polygon.jsonValue, PolyLine.jsonValue, bind, ret;
    destruct (Shape.registerPicklers self w) as [[[] | e] w1];
    intro H; try discriminate H; injection H as <- _; reflexivity.
Qed.

(* ================================================================= *)
(** ** Which operations have effects *)

Lemma PolygonUDT_deserialize_pure (datum : pyval) :
  pure (PolygonUDT.deserialize datum).
Proof.
  unfold PolygonUDT.deserialize.
  destruct (isinstance datum TPolygon); pure_steps.
  apply PointUDT_deserialize_pure.
Qed.

Lemma PolyLineUDT_deserialize_quiet `{Formatter} (datum : pyval) :
  quiet (PolyLineUDT.deserialize datum).
Proof.
  unfold PolyLineUDT.deserialize.
  destruct (isinstance datum TPolyLine).
  - apply quiet_of_pure. pure_steps.
  - apply quiet_bind; [apply quiet_of_pure; pure_steps | intro n].
    apply quiet_bind; [apply quiet_of_pure; pure_steps | intros _].
    apply quiet_bind; [apply quiet_print | intros _].
    apply quiet_of_pure. pure_steps. apply PointUDT_deserialize_pure.
Qed.

Lemma serialize_pure `{Formatter} (v : variant) (obj : pyval) :
  pure (serialize v obj).
Proof.
  destruct v; simpl;
    unfold PointUDT.serialize, PolygonUDT.serialize, PolyLineUDT.serialize,
      raise_cannot_serialize;
    match goal with
    | |- context [isinstance obj ?t] => destruct (isinstance obj t)
    end; pure_steps.
Qed.

Lemma PointUDT_fromJson_pure (json : pyval) : pure (PointUDT.fromJson json).
Proof. unfold PointUDT.fromJson. pure_steps. Qed.

Lemma fromJson_pure (c : shape_class) (json : pyval) :
  pure (class_fromJson c json).
Proof.
  destruct c; simpl;
    unfold PointUDT.fromJson, Point.fromJson, PolygonUDT.fromJson,
      Polygon.fromJson, PolyLineUDT.fromJson, PolyLine.fromJson;
    pure_steps; apply PointUDT_fromJson_pure.
Qed.

(** Claim C8, as stated, fails twice: [jsonValue] changes the process-wide
    state when it is the first to run the hook, and
    [PolyLineUDT.deserialize] writes its datum to the standard
    output. *)
Lemma C8_counterexample_effects :
  snd (Point.jsonValue (PPoint (PInt 0) (PInt 0)) fresh_process)
  = registered fresh_process
  /\ ~ pure (Point.jsonValue (PPoint (PInt 0) (PInt 0)))
  /\ stdout (snd (@PolyLineUDT.deserialize sample_formatter
                    (PTuple [PInt 3; PList []; PList []]) fresh_process))
     = [PTuple [PInt 3; PList []; PList []]]
  /\ ~ pure (@PolyLineUDT.deserialize sample_formatter
               (PTuple [PInt 3; PList []; PList []])).
Proof.
  split; [reflexivity |]. split; [| split; [reflexivity |]].
  - intros [r Hr]. specialize (Hr fresh_process). discriminate Hr.
  - intros [r Hr]. specialize (Hr fresh_process). discriminate Hr.
Qed.

(** Claim C8, amended: [serialize] of the three codecs, [deserialize] of
    the Point and the Polygon codec and every [fromJson] are pure: the
    outcome is a function of the argument and no state changes.
    [PolyLineUDT.deserialize] has an outcome that is a function of its
    argument and leaves the registration state alone.  [jsonValue]
    returns the same mapping in every state in which it returns, and is
    pure once the flag is set; while the flag is not set it runs the
    registration, which changes the process-wide state. *)
Theorem C8_purity `{Formatter} :
  (forall v obj, pure (serialize v obj))
  /\ (forall datum, pure (PointUDT.deserialize datum))
  /\ (forall datum, pure (PolygonUDT.deserialize datum))
  /\ (forall c json, pure (class_fromJson c json))
  /\ (forall datum, exists r, forall w, exists out,
         PolyLineUDT.deserialize datum w = (r, with_stdout w out))
  /\ (forall v self, exists d,
         (forall w, __initialized__ w = true ->
                    jsonValue v self w = (Ok d, w))
         /\ (forall w, __initialized__ w = false -> host_ready w = true ->
                       jsonValue v self w = (Ok d, registered w))).
Proof.
  split; [exact serialize_pure |].
  split; [exact PointUDT_deserialize_pure |].
  split; [exact PolygonUDT_deserialize_pure |].
  split; [exact fromJson_pure |].
  split; [exact PolyLineUDT_deserialize_quiet |].
  intros v self.
  destruct v; simpl; eexists; split; intros w Hflag;
    unfold Point.jsonValue, Polygon.jsonValue, PolyLine.jsonValue.
  all: try (rewrite (bind_ok _ _ tt w w (registerPicklers_again self w Hflag));
            reflexivity).
  all: intro Hready;
    rewrite (bind_ok _ _ tt w (registered w)
               (registerPicklers_first self w Hflag Hready));
    reflexivity.
Qed.

Lemma C8_purity_witness :
  exists d,
    PolyLine.jsonValue (PPolyLine (PList []) (PList []))
      (registered fresh_process) = (Ok d, registered fresh_process)
    /\ PolyLine.jsonValue (PPolyLine (PList []) (PList [])) fresh_process
       = (Ok d, registered fresh_process).
Proof.
  destruct (proj2 (proj2 (proj2 (proj2 (proj2
              (@C8_purity sample_formatter))))) VPolyLine
              (PPolyLine (PList []) (PList []))) as [d [Hset Hfirst]].
  exists d. split.
  - apply Hset. reflexivity.
  - apply Hfirst; reflexivity.
Defined.

(* ================================================================= *)
(** ** String rendering *)

(** Claim C7: a point renders as ["Point ("], [str(x)], a comma, [str(y)]
    and [")"]; a polygon and a polyline alike render as ["Polygon ("],
    the bracketed comma-joined [str] of the indices, a comma, the
    bracketed comma-joined [str] of the points, and [")"]. *)
Theorem C7_string_rendering `{Formatter} :
  (forall x y sx sy,
     py_str x = Ok sx -> py_str y = Ok sy ->
     Point.__str__ (PPoint x y) = Ok ("Point (" ++ sx ++ "," ++ sy ++ ")"))
  /\ (forall indices points ixs vs sixs svs,
        py_iter indices = Ok ixs -> mapR py_str ixs = Ok sixs ->
        py_iter points = Ok vs -> mapR py_str vs = Ok svs ->
        let text := "Polygon (" ++ ("[" ++ String.concat "," sixs ++ "]")
                    ++ "," ++ ("[" ++ String.concat "," svs ++ "]") ++ ")" in
        Polygon.__str__ (PPolygon indices points) = Ok text
        /\ PolyLine.__str__ (PPolyLine indices points) = Ok text).
Proof.
  split.
  - intros x y sx sy Hx Hy. unfold Point.__str__, Point_str; simpl.
    rewrite Hx, Hy. reflexivity.
  - intros indices points ixs vs sixs svs Hi Hsi Hp Hsp text.
    unfold Polygon.__str__, PolyLine.__str__, Polygon_str, PolyLine_str.
    cbn [Polygon.indices Polygon.points PolyLine.indices PolyLine.points].
    rewrite !str_items_comprehension, Hi, Hp. cbn [bindR].
    rewrite Hsi, Hsp. cbn [bindR].
    rewrite concat_pair. unfold text. rewrite !append_assoc.
    split; reflexivity.
Qed.

Lemma C7_string_rendering_witness :
  @Point.__str__ sample_formatter (PPoint (PInt 1) (PInt (-2)))
  = Ok "Point (1,-2)"
  /\ @Polygon.__str__ sample_formatter
       (PPolygon (PList [PInt 0; PInt 2])
          (PList [PPoint (PInt 1) (PInt (-2)); PPoint (PInt 3) (PInt 4)]))
     = Ok "Polygon ([0,2],[Point (1,-2),Point (3,4)])"
  /\ @PolyLine.__str__ sample_formatter
       (PPolyLine (PList [PInt 0; PInt 2])
          (PList [PPoint (PInt 1) (PInt (-2)); PPoint (PInt 3) (PInt 4)]))
     = Ok "Polygon ([0,2],[Point (1,-2),Point (3,4)])".
Proof.
  split.
  - apply (proj1 (@C7_string_rendering sample_formatter)
             (PInt 1) (PInt (-2)) "1" "-2"); reflexivity.
  - apply (proj2 (@C7_string_rendering sample_formatter)
             (PList [PInt 0; PInt 2])
             (PList [PPoint (PInt 1) (PInt (-2)); PPoint (PInt 3) (PInt 4)])
             [PInt 0; PInt 2]
             [PPoint (PInt 1) (PInt (-2)); PPoint (PInt 3) (PInt 4)]
             ["0"; "2"] ["Point (1,-2)"; "Point (3,4)"]); reflexivity.
Defined.

(* ================================================================= *)
(** ** Reconstruction from JSON *)

Lemma PointUDT_fromJson_ok (j x y : pyval) (w : world) :
  py_getitem j "x" = Ok x -> py_getitem j "y" = Ok y ->
  PointUDT.fromJson j w = (Ok (PPoint x y), w).
Proof.
  intros Hx Hy. unfold PointUDT.fromJson, bind, lift.
  rewrite Hx, Hy. reflexivity.
Qed.

Lemma mapM_fromJson (js : list pyval) :
  Forall json_point js ->
  exists ps, List.length ps = List.length js
             /\ forall w, mapM PointUDT.fromJson js w = (Ok ps, w).
Proof.
  induction 1 as [| j js [x [y [Hx Hy]]] _ [ps [Hlen IH]]].
  - exists []. split; reflexivity.
  - exists (PPoint x y :: ps). split; [simpl; rewrite Hlen; reflexivity |].
    intro w. simpl.
    rewrite (bind_ok _ _ _ w w (PointUDT_fromJson_ok j x y w Hx Hy)).
    rewrite (bind_ok _ _ _ w w (IH w)). reflexivity.
Qed.

(** Every [fromJson] of the polygon and polyline classes takes the
    indices as they are and rebuilds the points one by one. *)
Lemma poly_fromJson_ok (json indices field : pyval) (js : list pyval) :
  py_getitem json "indices" = Ok indices ->
  py_getitem json "points" = Ok field ->
  py_iter field = Ok js ->
  Forall json_point js ->
  exists ps,
    List.length ps = List.length js
    /\ forall w,
        PolygonUDT.fromJson json w = (Ok (PPolygon indices (PList ps)), w)
        /\ Polygon.fromJson json w = (Ok (PPolygon indices (PList ps)), w)
        /\ PolyLineUDT.fromJson json w = (Ok (PPolyLine indices (PList ps)), w)
        /\ PolyLine.fromJson json w = (Ok (PPolyLine indices (PList ps)), w).
Proof.
  intros Hi Hf Hit Hjs. destruct (mapM_fromJson js Hjs) as [ps [Hlen Hps]].
  exists ps. split; [exact Hlen |]. intro w.
  unfold PolygonUDT.fromJson, Polygon.fromJson, PolyLineUDT.fromJson,
    PolyLine.fromJson, bind, lift.
  rewrite Hi, Hf, Hit, Hps. repeat split.
Qed.

(* ================================================================= *)
(** ** Dispatch on the envelope *)

Lemma rfind_from_no_dot (s : string) (i found : Z) :
  no_dot s = true -> rfind_from s i found = found.
Proof.
  revert i found. induction s as [| c s IH]; intros i found Hs; simpl in *.
  - reflexivity.
  - apply andb_true_iff in Hs as [Hc Hs].
    apply negb_true_iff in Hc. rewrite Hc. apply IH. exact Hs.
Qed.

Lemma rfind_from_qualified (m c : string) (i found : Z) :
  no_dot c = true ->
  rfind_from (m ++ "." ++ c) i found = (i + Z.of_nat (String.length m))%Z.
Proof.
  intro Hc. revert i found. induction m as [| a m IH]; intros i found.
  - simpl. rewrite (rfind_from_no_dot c _ _ Hc). lia.
  - cbn [append rfind_from String.length]. rewrite IH. lia.
Qed.

(** The last dot of [<module>.<ClassName>] comes right after the
    module. *)
Lemma rfind_dot_qualified (m c : string) :
  no_dot c = true ->
  rfind_dot (m ++ "." ++ c) = Z.of_nat (String.length m).
Proof.
  intro Hc. unfold rfind_dot. rewrite rfind_from_qualified by exact Hc. lia.
Qed.

Lemma length_append (a b : string) :
  String.length (a ++ b) = String.length a + String.length b.
Proof. induction a as [| ch a IH]; simpl; [| rewrite IH]; reflexivity. Qed.

Lemma substring_all (s : string) : substring 0 (String.length s) s = s.
Proof. induction s as [| ch s IH]; simpl; [| rewrite IH]; reflexivity. Qed.

Lemma substring_prefix (a b : string) :
  substring 0 (String.length a) (a ++ b) = a.
Proof.
  induction a as [| ch a IH]; simpl.
  - destruct b; reflexivity.
  - rewrite IH. reflexivity.
Qed.

Lemma substring_suffix (a b : string) :
  substring (String.length a) (String.length b) (a ++ b) = b.
Proof.
  induction a as [| ch a IH]; simpl.
  - apply substring_all.
  - exact IH.
Qed.

Lemma slice_bound_prefix (a b : string) :
  slice_bound (a ++ b) (Z.of_nat (String.length a)) = String.length a.
Proof.
  unfold slice_bound. rewrite length_append.
  destruct (Z.of_nat (String.length a) <? 0)%Z eqn:Hneg; [lia | lia].
Qed.

Lemma slice_to_prefix (a b : string) :
  slice_to (a ++ b) (Z.of_nat (String.length a)) = a.
Proof. unfold slice_to. rewrite slice_bound_prefix. apply substring_prefix. Qed.

Lemma slice_from_suffix (a b : string) :
  slice_from (a ++ b) (Z.of_nat (String.length a)) = b.
Proof.
  unfold slice_from. rewrite slice_bound_prefix, length_append.
  replace (String.length a + String.length b - String.length a)
    with (String.length b) by lia.
  apply substring_suffix.
Qed.

(** Splitting [<module>.<ClassName>] at its last dot gives the module
    and the class name back. *)
Lemma split_qualified (m c : string) :
  no_dot c = true ->
  let split := rfind_dot (m ++ "." ++ c) in
  slice_to (m ++ "." ++ c) split = m
  /\ slice_from (m ++ "." ++ c) (split + 1) = c.
Proof.
  intros Hc split. unfold split. rewrite (rfind_dot_qualified m c Hc). split.
  - apply slice_to_prefix.
  - replace (Z.of_nat (String.length m) + 1)%Z
      with (Z.of_nat (String.length (m ++ "."))).
    + rewrite <- append_assoc. apply slice_from_suffix.
    + rewrite length_append. simpl. lia.
Qed.

Lemma class_name_no_dot (c : shape_class) : no_dot (class_name c) = true.
Proof. destruct c; reflexivity. Qed.





(* ================================================================= *)
(** ** What a successful decode tells *)

Lemma decodes_of_ok (d p : pyval) (w w' : world) :
  PointUDT.deserialize d w = (Ok p, w') -> w' = w /\ decodes_to d p.
Proof. apply pure_outcome, PointUDT_deserialize_pure. Qed.

(** How [PointUDT.deserialize] can return. *)
Lemma PointUDT_deserialize_inv (d r : pyval) (w w' : world) :
  PointUDT.deserialize d w = (Ok r, w') ->
  (isinstance d TPoint = true /\ r = d)
  \/ (isinstance d TPoint = false /\ py_len d = Ok 3
      /\ exists tpe x y,
          py_index d 0 = Ok tpe /\ py_eq tpe (PInt 1) = true
          /\ py_index d 1 = Ok x /\ py_index d 2 = Ok y /\ r = PPoint x y).
Proof.
  unfold PointUDT.deserialize, bind, lift, py_assert, ret, raise. intro H.
  destruct (isinstance d TPoint) eqn:Hinst.
  - left. injection H as -> _. split; reflexivity.
  - right. split; [reflexivity |].
    destruct (py_len d) as [n |] eqn:Hlen; [| discriminate H].
    destruct (Nat.eqb n 3) eqn:Hn; [| discriminate H].
    apply Nat.eqb_eq in Hn. subst n. split; [reflexivity |].
    destruct (py_index d 0) as [tpe |] eqn:H0; [| discriminate H].
    destruct (py_eq tpe (PInt 1)) eqn:Htag; [| discriminate H].
    destruct (py_index d 1) as [x |] eqn:H1; [| discriminate H].
    destruct (py_index d 2) as [y |] eqn:H2; [| discriminate H].
    injection H as <- _. exists tpe, x, y. repeat split; assumption.
Qed.

Lemma PointUDT_deserialize_point (d r : pyval) (w w' : world) :
  PointUDT.deserialize d w = (Ok r, w') -> isinstance r TPoint = true.
Proof.
  intro H. destruct (PointUDT_deserialize_inv d r w w' H)
    as [[Hinst ->] | [_ [_ [tpe [x [y [_ [_ [_ [_ ->]]]]]]]]]].
  - exact Hinst.
  - reflexivity.
Qed.

Lemma mapM_deserialize_inv (ds ps : list pyval) (w w' : world) :
  mapM PointUDT.deserialize ds w = (Ok ps, w') ->
  w' = w /\ Forall2 decodes_to ds ps.
Proof.
  revert ps w'. induction ds as [| d ds IH]; intros ps w' H; simpl in H.
  - injection H as <- <-. split; [reflexivity | constructor].
  - unfold bind in H.
    destruct (PointUDT.deserialize d w) as [[p | e] w1] eqn:Hd;
      [| discriminate H].
    destruct (decodes_of_ok d p w w1 Hd) as [-> Hp].
    destruct (mapM PointUDT.deserialize ds w) as [[qs | e] w2] eqn:Hds;
      [| discriminate H].
    destruct (IH qs w2 eq_refl) as [-> Hqs].
    injection H as <- <-. split; [reflexivity |].
    constructor; assumption.
Qed.

Lemma mapM_deserialize_fail
  (good ps rest : list pyval) (bad : pyval) (e : exn) (w w1 : world) :
  Forall2 decodes_to good ps ->
  PointUDT.deserialize bad w = (Raise e, w1) ->
  mapM PointUDT.deserialize (good ++ bad :: rest)%list w = (Raise e, w).
Proof.
  intros Hgood Hbad.
  destruct (pure_outcome _ w w1 _ (PointUDT_deserialize_pure bad) Hbad)
    as [-> _].
  induction Hgood as [| d p good ps Hd _ IH]; simpl.
  - apply bind_raise. exact Hbad.
  - rewrite (bind_ok _ _ p w w (Hd w)). apply bind_raise. exact IH.
Qed.

(** How the Polygon and the PolyLine codec can return: the datum is
    native and handed back, or it is a triple with the right tag whose
    third element is a sequence of data the Point codec decodes. *)
Lemma poly_deserialize_inv `{Formatter}
  (v : variant) (d r : pyval) (w w' : world) :
  v <> VPoint ->
  deserialize v d w = (Ok r, w') ->
  (isinstance d (native v) = true /\ r = d /\ w' = w)
  \/ (isinstance d (native v) = false /\ py_len d = Ok 3
      /\ exists tpe indices field items ps,
          py_index d 0 = Ok tpe
          /\ py_eq tpe (PInt (discriminant v)) = true
          /\ py_index d 1 = Ok indices /\ py_index d 2 = Ok field
          /\ py_iter field = Ok items
          /\ Forall2 decodes_to items ps
          /\ r = entity v indices (PList ps)).
Proof.
  intros Hv Hd.
  destruct v; [contradiction | |]; simpl in *;
    unfold PolygonUDT.deserialize, PolyLineUDT.deserialize, bind, lift,
      py_assert, py_print, get, put, ret, raise in Hd.
  - destruct (isinstance d TPolygon) eqn:Hinst.
    + left. injection Hd as -> ->. repeat split.
    + right. split; [reflexivity |].
      destruct (py_len d) as [n |] eqn:Hlen; [| discriminate Hd].
      destruct (Nat.eqb n 3) eqn:Hn; [| discriminate Hd].
      apply Nat.eqb_eq in Hn. subst n. split; [reflexivity |].
      destruct (py_index d 0) as [tpe |] eqn:H0; [| discriminate Hd].
      destruct (py_eq tpe (PInt 5)) eqn:Htag; [| discriminate Hd].
      destruct (py_index d 1) as [indices |] eqn:H1; [| discriminate Hd].
      destruct (py_index d 2) as [field |] eqn:H2; [| discriminate Hd].
      destruct (py_iter field) as [items |] eqn:Hit; [| discriminate Hd].
      destruct (mapM PointUDT.deserialize items w) as [[ps | e] w1] eqn:Hm;
        [| discriminate Hd].
      destruct (mapM_deserialize_inv items ps w w1 Hm) as [-> Hps].
      injection Hd as <- _.
      exists tpe, indices, field, items, ps.
      repeat split; first [assumption | exact Htag].
  - destruct (isinstance d TPolyLine) eqn:Hinst.
    + left. injection Hd as -> ->. repeat split.
    + right. split; [reflexivity |].
      destruct (py_len d) as [n |] eqn:Hlen; [| discriminate Hd].
      destruct (Nat.eqb n 3) eqn:Hn; [| discriminate Hd].
      apply Nat.eqb_eq in Hn. subst n. split; [reflexivity |].
      unfold bind in Hd; cbn beta iota in Hd.
      destruct (py_str d) as [text |] eqn:Htext; [| discriminate Hd].
      unfold bind, get, put in Hd; cbn beta iota in Hd.
      destruct (py_index d 0) as [tpe |] eqn:H0; [| discriminate Hd].
      destruct (py_eq tpe (PInt 3)) eqn:Htag; [| discriminate Hd].
      destruct (py_index d 1) as [indices |] eqn:H1; [| discriminate Hd].
      destruct (py_index d 2) as [field |] eqn:H2; [| discriminate Hd].
      destruct (py_iter field) as [items |] eqn:Hit; [| discriminate Hd].
      unfold bind, lift in Hd; cbn beta iota in Hd.
      match type of Hd with
      | context [mapM PointUDT.deserialize items ?w0] =>
          destruct (mapM PointUDT.deserialize items w0)
            as [[ps | e] w1] eqn:Hm; [| discriminate Hd];
          destruct (mapM_deserialize_inv items ps w0 w1 Hm) as [-> Hps]
      end.
      injection Hd as <- _.
      exists tpe, indices, field, items, ps.
      repeat split; first [reflexivity | assumption | exact Htag].
Qed.

Lemma deserialize_native `{Formatter}
  (v : variant) (d r : pyval) (w w' : world) :
  deserialize v d w = (Ok r, w') -> isinstance r (native v) = true.
Proof.
  intro Hd. destruct v.
  - apply (PointUDT_deserialize_point d r w w' Hd).
  - destruct (poly_deserialize_inv VPolygon d r w w' ltac:(discriminate) Hd)
      as [[Hi [-> _]] | [_ [_ [t [i [f [it [ps [_ [_ [_ [_ [_ [_ ->]]]]]]]]]]]]]];
      [exact Hi | reflexivity].
  - destruct (poly_deserialize_inv VPolyLine d r w w' ltac:(discriminate) Hd)
      as [[Hi [-> _]] | [_ [_ [t [i [f [it [ps [_ [_ [_ [_ [_ [_ ->]]]]]]]]]]]]]];
      [exact Hi | reflexivity].
Qed.

Lemma deserialize_of_native `{Formatter} (v : variant) (r : pyval) (w : world) :
  isinstance r (native v) = true -> deserialize v r w = (Ok r, w).
Proof.
  intro Hn. destruct v; simpl in *;
    unfold PointUDT.deserialize, PolygonUDT.deserialize,
      PolyLineUDT.deserialize; rewrite Hn; reflexivity.
Qed.

Lemma serialize_of_native `{Formatter} (v : variant) (r : pyval) (w : world) :
  isinstance r (native v) = true -> serialize v r w = (Ok r, w).
Proof.
  intro Hn. destruct v; simpl in *;
    unfold PointUDT.serialize, PolygonUDT.serialize, PolyLineUDT.serialize;
    rewrite Hn; reflexivity.
Qed.

(** How a [serialize] can return. *)
Lemma serialize_inv `{Formatter} (v : variant) (obj r : pyval) (w w' : world) :
  serialize v obj w = (Ok r, w') ->
  isinstance obj (native v) = true /\ r = obj /\ w' = w.
Proof.
  intro Hs.
  destruct v; simpl in *;
    unfold PointUDT.serialize, PolygonUDT.serialize,
      PolyLineUDT.serialize, raise_cannot_serialize, bind, lift, raise in Hs;
    match type of Hs with
    | context [isinstance obj ?t] => destruct (isinstance obj t)
    end;
    try (destruct (py_repr obj); discriminate Hs);
    injection Hs as <- <-; repeat split.
Qed.

(** X1: whatever a [deserialize] returns is a native entity of its
    codec, so that serializing it, or decoding it once more, hands it
    back unchanged. *)
Theorem X1_decoded_is_native `{Formatter}
  (v : variant) (d r : pyval) (w w' : world) :
  deserialize v d w = (Ok r, w') ->
  isinstance r (native v) = true
  /\ serialize v r w' = (Ok r, w')
  /\ deserialize v r w' = (Ok r, w').
Proof.
  intro Hd. pose proof (deserialize_native v d r w w' Hd) as Hn.
  split; [exact Hn |]. split.
  - apply serialize_of_native. exact Hn.
  - apply deserialize_of_native. exact Hn.
Qed.

Lemma X1_decoded_is_native_witness :
  isinstance (PPoint (PInt 4) (PInt 5)) TPoint = true
  /\ @PointUDT.serialize sample_formatter (PPoint (PInt 4) (PInt 5))
       fresh_process
     = (Ok (PPoint (PInt 4) (PInt 5)), fresh_process)
  /\ PointUDT.deserialize (PPoint (PInt 4) (PInt 5)) fresh_process
     = (Ok (PPoint (PInt 4) (PInt 5)), fresh_process).
Proof.
  apply (@X1_decoded_is_native sample_formatter VPoint
           (PList [PBool true; PInt 4; PInt 5])
           (PPoint (PInt 4) (PInt 5)) fresh_process fresh_process).
  reflexivity.
Defined.

(** X2: what [serialize] accepts, [deserialize] of the same codec
    gives back: the two compose to the identity on native entities. *)
Theorem X2_serialize_then_deserialize `{Formatter}
  (v : variant) (obj r : pyval) (w w' : world) :
  serialize v obj w = (Ok r, w') ->
  r = obj /\ w' = w /\ deserialize v r w' = (Ok obj, w').
Proof.
  intro Hs. destruct (serialize_inv v obj r w w' Hs) as [Hn [-> ->]].
  repeat split. apply deserialize_of_native. exact Hn.
Qed.

Lemma X2_serialize_then_deserialize_witness :
  PPolyLine (PList [PInt 0]) (PList []) = PPolyLine (PList [PInt 0]) (PList [])
  /\ fresh_process = fresh_process
  /\ @PolyLineUDT.deserialize sample_formatter
       (PPolyLine (PList [PInt 0]) (PList [])) fresh_process
     = (Ok (PPolyLine (PList [PInt 0]) (PList [])), fresh_process).
Proof.
  apply (@X2_serialize_then_deserialize sample_formatter VPolyLine
           (PPolyLine (PList [PInt 0]) (PList [])) _ fresh_process _).
  reflexivity.
Defined.

(** X3: when the Polygon or the PolyLine codec returns on a datum that
    is not native, the entity holds [datum[1]] as its indices and a
    list of [Point] instances as its points, one for each element of
    [datum[2]], whatever kind of sequence that was. *)
Theorem X3_decoded_polygon_shape `{Formatter}
  (v : variant) (d r : pyval) (w w' : world) :
  v <> VPoint ->
  isinstance d (native v) = false ->
  deserialize v d w = (Ok r, w') ->
  exists indices field items ps,
    py_index d 1 = Ok indices /\ py_index d 2 = Ok field
    /\ py_iter field = Ok items
    /\ r = entity v indices (PList ps)
    /\ List.length ps = List.length items
    /\ Forall (fun p => isinstance p TPoint = true) ps.
Proof.
  intros Hv Hraw Hd.
  destruct (poly_deserialize_inv v d r w w' Hv Hd)
    as [[Hnat _] | [_ [_ [tpe [indices [field [items [ps
         [_ [_ [H1 [H2 [Hit [Hps ->]]]]]]]]]]]]]].
  - rewrite Hraw in Hnat. discriminate Hnat.
  - exists indices, field, items, ps. repeat split; try assumption.
    + symmetry. eapply Forall2_length. exact Hps.
    + clear - Hps w. induction Hps as [| x p items ps Hxp _ IH]; constructor.
      * apply (PointUDT_deserialize_point x p w w (Hxp w)).
      * exact IH.
Qed.

Lemma X3_decoded_polygon_shape_witness :
  exists indices field items ps,
    py_index (PList [PInt 5; PNone; PTuple [PPoint (PInt 1) (PInt 2)]]) 1
    = Ok indices
    /\ py_index (PList [PInt 5; PNone; PTuple [PPoint (PInt 1) (PInt 2)]]) 2
       = Ok field
    /\ py_iter field = Ok items
    /\ PPolygon PNone (PList [PPoint (PInt 1) (PInt 2)])
       = entity VPolygon indices (PList ps)
    /\ List.length ps = List.length items
    /\ Forall (fun p => isinstance p TPoint = true) ps.
Proof.
  apply (@X3_decoded_polygon_shape sample_formatter VPolygon
           (PList [PInt 5; PNone; PTuple [PPoint (PInt 1) (PInt 2)]])
           (PPolygon PNone (PList [PPoint (PInt 1) (PInt 2)]))
           fresh_process fresh_process);
    [discriminate | reflexivity | reflexivity].
Defined.

(** The PolyLine codec never returns on a triple whose points the Point
    codec does not all decode. *)
Lemma PolyLineUDT_deserialize_bad_point `{Formatter}
  (tag indices bad : pyval) (good ps rest : list pyval) (e : exn) (w : world) :
  Forall2 decodes_to good ps ->
  PointUDT.deserialize bad w = (Raise e, w) ->
  exists e' w',
    PolyLineUDT.deserialize
      (PTuple [tag; indices; PList (good ++ bad :: rest)%list]) w
    = (Raise e', w').
Proof.
  intros Hps Hbad.
  destruct (PolyLineUDT.deserialize
              (PTuple [tag; indices; PList (good ++ bad :: rest)%list]) w)
    as [[r | e'] w'] eqn:Hd; [| exists e', w'; reflexivity].
  exfalso.
  destruct (poly_deserialize_inv VPolyLine _ r w w' ltac:(discriminate) Hd)
    as [[Hnat _] | [_ [_ [tpe [i [field [items [qs
         [_ [_ [_ [H2 [Hit [Hqs _]]]]]]]]]]]]]].
  - discriminate Hnat.
  - simpl in H2. injection H2 as <-. simpl in Hit. injection Hit as <-.
    pose proof (mapM_deserialize _ qs w Hqs) as Hok.
    rewrite (mapM_deserialize_fail good ps rest bad e w w Hps Hbad) in Hok.
    discriminate Hok.
Qed.

(** X4: the first point datum that the Point codec rejects ends the
    decoding of a polygon with that very exception and the state as it
    was; the data after it are never looked at.  The PolyLine codec
    raises on such a triple as well. *)
Theorem X4_first_bad_point_propagates `{Formatter}
  (indices bad : pyval) (good rest : list pyval) (e : exn) (w : world) :
  Forall (fun d => exists p, decodes_to d p) good ->
  PointUDT.deserialize bad w = (Raise e, w) ->
  PolygonUDT.deserialize
    (PTuple [PInt 5; indices; PList (good ++ bad :: rest)%list]) w
  = (Raise e, w)
  /\ exists e' w',
       PolyLineUDT.deserialize
         (PTuple [PInt 3; indices; PList (good ++ bad :: rest)%list]) w
       = (Raise e', w').
Proof.
  intros Hgood Hbad. destruct (decodable_list good Hgood) as [ps Hps].
  split.
  - unfold PolygonUDT.deserialize, bind, lift, py_assert, ret; simpl.
    rewrite (mapM_deserialize_fail good ps rest bad e w w Hps Hbad).
    reflexivity.
  - apply (PolyLineUDT_deserialize_bad_point _ _ bad good ps rest e w Hps Hbad).
Qed.

Lemma X4_first_bad_point_propagates_witness :
  PolygonUDT.deserialize
    (PTuple [PInt 5; PList [];
             PList [PTuple [PInt 1; PInt 0; PInt 0];
                    PTuple [PInt 2; PInt 0; PInt 0];
                    PNone]]) fresh_process
  = (Raise (Exn AssertionError (Text "Point should have type = 1")),
     fresh_process).
Proof.
  apply (proj1 (@X4_first_bad_point_propagates sample_formatter (PList [])
                  (PTuple [PInt 2; PInt 0; PInt 0])
                  [PTuple [PInt 1; PInt 0; PInt 0]] [PNone]
                  (Exn AssertionError (Text "Point should have type = 1"))
                  fresh_process
                  ltac:(repeat constructor; eexists; apply point_triple_decodes)
                  eq_refl)).
Defined.

(* ================================================================= *)
(** ** What each codec turns away *)

Lemma discriminant_injective (v v' : variant) :
  discriminant v = discriminant v' -> v = v'.
Proof. destruct v, v'; simpl; intro H; try reflexivity; discriminate H. Qed.

Lemma native_exclusive (v v' : variant) (d : pyval) :
  v <> v' -> isinstance d (native v) = true ->
  isinstance d (native v') = false /\ py_len d = Raise (Exn TypeError Interpreter).
Proof.
  intros Hv H. destruct v, v', d; simpl in *;
    try discriminate H; try contradiction; split; reflexivity.
Qed.

Lemma sized_not_native (v : variant) (d : pyval) (n : nat) :
  py_len d = Ok n -> isinstance d (native v) = false.
Proof. intro H. destruct v, d; simpl in *; try discriminate H; reflexivity. Qed.

(** How a [deserialize] can return on a datum that is not native. *)
Lemma deserialize_raw_inv `{Formatter}
  (v : variant) (d r : pyval) (w w' : world) :
  isinstance d (native v) = false ->
  deserialize v d w = (Ok r, w') ->
  py_len d = Ok 3
  /\ exists tpe, py_index d 0 = Ok tpe
                 /\ py_eq tpe (PInt (discriminant v)) = true.
Proof.
  intros Hraw Hd. destruct v.
  - destruct (PointUDT_deserialize_inv d r w w' Hd)
      as [[Hn _] | [_ [Hlen [tpe [x [y [H0 [Htag _]]]]]]]].
    + simpl in Hraw. rewrite Hraw in Hn. discriminate Hn.
    + split; [exact Hlen |]. exists tpe. split; assumption.
  - destruct (poly_deserialize_inv VPolygon d r w w' ltac:(discriminate) Hd)
      as [[Hn _] | [_ [Hlen [tpe [i [f [it [ps [H0 [Htag _]]]]]]]]]].
    + rewrite Hraw in Hn. discriminate Hn.
    + split; [exact Hlen |]. exists tpe. split; assumption.
  - destruct (poly_deserialize_inv VPolyLine d r w w' ltac:(discriminate) Hd)
      as [[Hn _] | [_ [Hlen [tpe [i [f [it [ps [H0 [Htag _]]]]]]]]]].
    + rewrite Hraw in Hn. discriminate Hn.
    + split; [exact Hlen |]. exists tpe. split; assumption.
Qed.

Lemma deserialize_unsized `{Formatter}
  (v : variant) (d : pyval) (e : exn) (w : world) :
  isinstance d (native v) = false -> py_len d = Raise e ->
  deserialize v d w = (Raise e, w).
Proof.
  intros Hraw Hlen. destruct v; simpl in *;
    unfold PointUDT.deserialize, PolygonUDT.deserialize,
      PolyLineUDT.deserialize, bind, lift;
    rewrite Hraw, Hlen; reflexivity.
Qed.

(** X5: no datum is accepted by two codecs.  A datum that one codec
    decodes makes each other codec raise: a type error when the datum
    is a native entity of the first, and otherwise, from the Point and
    the Polygon codec, the assertion error about the tag. *)
Theorem X5_codecs_exclusive `{Formatter}
  (v v' : variant) (d r : pyval) (w w1 : world) :
  v <> v' ->
  deserialize v d w = (Ok r, w1) ->
  exists e w2,
    deserialize v' d w = (Raise e, w2)
    /\ (isinstance d (native v) = true -> e = Exn TypeError Interpreter)
    /\ (isinstance d (native v) = false -> v' <> VPolyLine ->
        e = Exn AssertionError (tag_message v')).
Proof.
  intros Hv Hd. destruct (isinstance d (native v)) eqn:Hnat.
  - destruct (native_exclusive v v' d Hv Hnat) as [Hraw' Hlen].
    exists (Exn TypeError Interpreter), w. split; [| split].
    + apply deserialize_unsized; assumption.
    + reflexivity.
    + intro Hf. discriminate Hf.
  - destruct (deserialize_raw_inv v d r w w1 Hnat Hd)
      as [Hlen [tpe [H0 Htag]]].
    assert (Htag' : py_eq tpe (PInt (discriminant v')) = false).
    { destruct (py_eq tpe (PInt (discriminant v'))) eqn:Htag';
        [| reflexivity].
      exfalso. apply Hv. apply discriminant_injective.
      apply (tag_unique tpe _ _ Htag Htag'). }
    pose proof (sized_not_native v' d 3 Hlen) as Hraw'.
    destruct (deserialize v' d w) as [[r' | e] w2] eqn:Hd'.
    + exfalso.
      destruct (deserialize_raw_inv v' d r' w w2 Hraw' Hd')
        as [_ [tpe' [H0' Hok]]].
      rewrite H0 in H0'. injection H0' as <-.
      rewrite Htag' in Hok. discriminate Hok.
    + exists e, w2. split; [reflexivity |]. split.
      * intro Hf. discriminate Hf.
      * intros _ Hline.
        destruct (deserialize_wrong_tag v' d tpe w Hraw' Hlen H0 Htag')
          as [w3 Hw3].
        { intro Hl. contradiction. }
        rewrite Hd' in Hw3. injection Hw3 as -> _. reflexivity.
Qed.

Lemma X5_codecs_exclusive_witness :
  exists e w2,
    PolygonUDT.deserialize (PTuple [PFloat float_1; PInt 2; PInt 3])
      fresh_process
    = (Raise e, w2)
    /\ (isinstance (PTuple [PFloat float_1; PInt 2; PInt 3]) TPoint = true ->
        e = Exn TypeError Interpreter)
    /\ (isinstance (PTuple [PFloat float_1; PInt 2; PInt 3]) TPoint = false ->
        VPolygon <> VPolyLine ->
        e = Exn AssertionError (Text "Polygon should have type = 5")).
Proof.
  apply (@X5_codecs_exclusive sample_formatter VPoint VPolygon
           (PTuple [PFloat float_1; PInt 2; PInt 3])
           (PPoint (PInt 2) (PInt 3)) fresh_process fresh_process).
  - discriminate.
  - reflexivity.
Defined.

(** X6: a datum that is not native and has no length (a number,
    [None], a class, an entity of another shape) makes [deserialize]
    raise the type error of [len], before any assertion is reached and
    with nothing printed. *)
Theorem X6_unsized_datum_type_error `{Formatter}
  (v : variant) (d : pyval) (w : world) :
  isinstance d (native v) = false ->
  (forall n, py_len d <> Ok n) ->
  deserialize v d w = (Raise (Exn TypeError Interpreter), w).
Proof.
  intros Hraw Hlen. apply deserialize_unsized; [exact Hraw |].
  destruct d; simpl in *; try reflexivity;
    exfalso; eapply Hlen; reflexivity.
Qed.

Lemma X6_unsized_datum_type_error_witness :
  @PolyLineUDT.deserialize sample_formatter
    (PPolygon (PList []) (PList [])) fresh_process
  = (Raise (Exn TypeError Interpreter), fresh_process).
Proof.
  apply (@X6_unsized_datum_type_error sample_formatter VPolyLine
           (PPolygon (PList []) (PList [])) fresh_process).
  - reflexivity.
  - intros n Hn. discriminate Hn.
Defined.

(** X24: the Polygon codec decodes every triple whose tag equals 5 and
    whose points the Point codec decodes, whatever stands in the place
    of the indices: the entity holds that value as it is and the
    decoded points in order, nothing relates the indices to the points,
    and the state is left as it was. *)
Theorem X24_polygon_decode
  (tag indices : pyval) (ds ps : list pyval) (w : world) :
  py_eq tag (PInt 5) = true ->
  Forall2 decodes_to ds ps ->
  exists r,
    PolygonUDT.deserialize (PTuple [tag; indices; PList ds]) w = (Ok r, w)
    /\ isinstance r TPolygon = true
    /\ Polygon.indices r = indices
    /\ Polygon.points r = PList ps.
Proof.
  intros Htag Hds. exists (PPolygon indices (PList ps)).
  split; [| repeat split].
  apply PolygonUDT_deserialize_triple; assumption.
Qed.

Lemma X24_polygon_decode_witness :
  exists r,
    PolygonUDT.deserialize
      (PTuple [PLong 5; PList [PInt 7; PInt 9];
               PList [PTuple [PInt 1; PInt 0; PInt 0]]]) fresh_process
    = (Ok r, fresh_process)
    /\ isinstance r TPolygon = true
    /\ Polygon.indices r = PList [PInt 7; PInt 9]
    /\ Polygon.points r = PList [PPoint (PInt 0) (PInt 0)].
Proof.
  apply (X24_polygon_decode (PLong 5) (PList [PInt 7; PInt 9])
           [PTuple [PInt 1; PInt 0; PInt 0]] [PPoint (PInt 0) (PInt 0)]
           fresh_process).
  - reflexivity.
  - constructor; [apply point_triple_decodes | constructor].
Defined.

(** X25: what the codecs reject by their assertions.  On a datum that
    is not native and has a length other than 3, every [deserialize]
    raises the assertion error whose message carries that length, and
    leaves the state as it was.  On a datum of three elements whose
    first does not equal the discriminant, the Point and the Polygon
    codec raise the assertion error about the tag, again with the state
    as it was. *)
Theorem X25_arity_and_tag_rejection `{Formatter}
  (v : variant) (datum : pyval) (w : world) :
  isinstance datum (native v) = false ->
  (forall n, py_len datum = Ok n -> n <> 3 ->
     deserialize v datum w
     = (Raise (Exn AssertionError (arity_message v n)), w))
  /\ (forall tpe, v <> VPolyLine ->
        py_len datum = Ok 3 -> py_index datum 0 = Ok tpe ->
        py_eq tpe (PInt (discriminant v)) = false ->
        deserialize v datum w
        = (Raise (Exn AssertionError (tag_message v)), w)).
Proof.
  intro Hinst. split.
  - intros n Hlen Hn. apply deserialize_wrong_arity; assumption.
  - intros tpe Hv Hlen Hidx Htag.
    unfold discriminant, Point._shape_type, Polygon._shape_type in Htag.
    destruct v; [| | contradiction]; simpl in *;
      unfold PointUDT.deserialize, PolygonUDT.deserialize, bind, lift,
        py_assert;
      rewrite Hinst, Hlen; simpl; rewrite Hidx, Htag; reflexivity.
Qed.

Lemma X25_arity_and_tag_rejection_witness :
  @PolyLineUDT.deserialize sample_formatter
    (PList [PInt 3; PList []]) fresh_process
  = (Raise (Exn AssertionError
              (Format
                 "PolyLineUDT.deserialize given row with length %d but requires 4"
                 [PInt 2])), fresh_process)
  /\ PolygonUDT.deserialize (PStr "abc") fresh_process
     = (Raise (Exn AssertionError (Text "Polygon should have type = 5")),
        fresh_process).
Proof.
  split.
  - apply (proj1 (@X25_arity_and_tag_rejection sample_formatter VPolyLine
                    (PList [PInt 3; PList []]) fresh_process eq_refl) 2).
    + reflexivity.
    + discriminate.
  - apply (proj2 (@X25_arity_and_tag_rejection sample_formatter VPolygon
                    (PStr "abc") fresh_process eq_refl) (PStr "a")).
    + discriminate.
    + reflexivity.
    + reflexivity.
    + reflexivity.
Defined.

(* ================================================================= *)
(** ** Rebuilding from JSON: failures and results *)

Lemma PointUDT_fromJson_inv (j r : pyval) (w w' : world) :
  PointUDT.fromJson j w = (Ok r, w') -> w' = w /\ rebuilds j r.
Proof.
  unfold PointUDT.fromJson, bind, lift, ret. intro H.
  destruct (py_getitem j "x") as [x |] eqn:Hx; [| discriminate H].
  destruct (py_getitem j "y") as [y |] eqn:Hy; [| discriminate H].
  injection H as <- <-. split; [reflexivity |].
  exists x, y. repeat split; assumption.
Qed.

Lemma mapM_fromJson_inv (js ps : list pyval) (w w' : world) :
  mapM PointUDT.fromJson js w = (Ok ps, w') ->
  w' = w /\ Forall2 rebuilds js ps.
Proof.
  revert ps w'. induction js as [| j js IH]; intros ps w' H; simpl in H.
  - injection H as <- <-. split; [reflexivity | constructor].
  - unfold bind in H.
    destruct (PointUDT.fromJson j w) as [[p | e] w1] eqn:Hj;
      [| discriminate H].
    destruct (PointUDT_fromJson_inv j p w w1 Hj) as [-> Hp].
    destruct (mapM PointUDT.fromJson js w) as [[qs | e] w2] eqn:Hjs;
      [| discriminate H].
    destruct (IH qs w2 eq_refl) as [-> Hqs].
    injection H as <- <-. split; [reflexivity |].
    constructor; assumption.
Qed.

(** How a [fromJson] can return. *)
Lemma class_fromJson_inv (c : shape_class) (json r : pyval) (w w' : world) :
  class_fromJson c json w = (Ok r, w') ->
  w' = w
  /\ match class_variant c with
     | VPoint => rebuilds json r
     | v =>
         exists indices field items ps,
           py_getitem json "indices" = Ok indices
           /\ py_getitem json "points" = Ok field
           /\ py_iter field = Ok items
           /\ Forall2 rebuilds items ps
           /\ r = entity v indices (PList ps)
     end.
Proof.
  intro H.
  destruct c; simpl in *;
    try (apply (PointUDT_fromJson_inv json r w w' H));
    unfold PolygonUDT.fromJson, Polygon.fromJson, PolyLineUDT.fromJson,
      PolyLine.fromJson, bind, lift, ret in H;
    (destruct (py_getitem json "indices") as [indices |] eqn:Hi;
       [| discriminate H]);
    (destruct (py_getitem json "points") as [field |] eqn:Hf;
       [| discriminate H]);
    (destruct (py_iter field) as [items |] eqn:Hit; [| discriminate H]);
    (destruct (mapM PointUDT.fromJson items w) as [[ps | e] w1] eqn:Hm;
       [| discriminate H]);
    destruct (mapM_fromJson_inv items ps w w1 Hm) as [-> Hps];
    injection H as <- <-; (split; [reflexivity |]);
    exists indices, field, items, ps; repeat split; assumption.
Qed.

(** X8: a [fromJson] reads its two keys in a fixed order and raises
    the key error of the first one that the mapping lacks (["x"] before
    ["y"], ["indices"] before ["points"]); on anything that is not a
    mapping it raises a type error.  The state is left as it was. *)
Theorem X8_fromJson_missing_key (c : shape_class) (json : pyval) (w : world) :
  (forall d, json = PDict d -> assoc (first_key c) d = None ->
     class_fromJson c json w
     = (Raise (Exn KeyError (Value (PStr (first_key c)))), w))
  /\ (forall d a, json = PDict d -> assoc (first_key c) d = Some a ->
        assoc (second_key c) d = None ->
        class_fromJson c json w
        = (Raise (Exn KeyError (Value (PStr (second_key c)))), w))
  /\ (py_type json <> TDict ->
      class_fromJson c json w = (Raise (Exn TypeError Interpreter), w)).
Proof.
  split; [| split].
  - intros d -> Hk.
    destruct c; simpl in *;
      unfold PointUDT.fromJson, Point.fromJson, PolygonUDT.fromJson,
        Polygon.fromJson, PolyLineUDT.fromJson, PolyLine.fromJson, bind, lift;
      simpl; rewrite Hk; reflexivity.
  - intros d a -> Hk1 Hk2.
    destruct c; simpl in *;
      unfold PointUDT.fromJson, Point.fromJson, PolygonUDT.fromJson,
        Polygon.fromJson, PolyLineUDT.fromJson, PolyLine.fromJson, bind, lift;
      simpl; rewrite Hk1, Hk2; reflexivity.
  - intro Hty.
    destruct json; try (exfalso; apply Hty; reflexivity);
      destruct c; reflexivity.
Qed.

Lemma X8_fromJson_missing_key_witness :
  PolygonUDT.fromJson (PDict [("points", PInt 7)]) fresh_process
  = (Raise (Exn KeyError (Value (PStr "indices"))), fresh_process)
  /\ Point.fromJson (PDict [("x", PInt 7)]) fresh_process
     = (Raise (Exn KeyError (Value (PStr "y"))), fresh_process)
  /\ PolyLine.fromJson (PList []) fresh_process
     = (Raise (Exn TypeError Interpreter), fresh_process).
Proof.
  split; [| split].
  - apply (proj1 (X8_fromJson_missing_key CPolygonUDT
                    (PDict [("points", PInt 7)]) fresh_process)
             [("points", PInt 7)]); reflexivity.
  - apply (proj1 (proj2 (X8_fromJson_missing_key CPoint
                           (PDict [("x", PInt 7)]) fresh_process))
             [("x", PInt 7)] (PInt 7)); reflexivity.
  - apply (proj2 (proj2 (X8_fromJson_missing_key CPolyLine (PList [])
                           fresh_process))).
    discriminate.
Defined.

(** X9: when a [fromJson] returns, the state is unchanged and the
    result is an instance of the class's shape; for a polygon or
    polyline it holds [json["indices"]] as it is and a fresh list with
    one [Point] per element of [json["points"]], built from that
    element's ["x"] and ["y"]. *)
Theorem X9_fromJson_result (c : shape_class) (json r : pyval) (w w' : world) :
  class_fromJson c json w = (Ok r, w') ->
  w' = w
  /\ isinstance r (native (class_variant c)) = true
  /\ (class_variant c <> VPoint ->
      exists indices field items ps,
        py_getitem json "indices" = Ok indices
        /\ py_getitem json "points" = Ok field
        /\ py_iter field = Ok items
        /\ r = entity (class_variant c) indices (PList ps)
        /\ List.length ps = List.length items
        /\ forall i j, nth_error items i = Some j ->
             exists x y, py_getitem j "x" = Ok x /\ py_getitem j "y" = Ok y
                         /\ nth_error ps i = Some (PPoint x y)).
Proof.
  intro H. destruct (class_fromJson_inv c json r w w' H) as [-> Hr].
  split; [reflexivity |].
  destruct (class_variant c) eqn:Hc.
  - destruct Hr as [x [y [_ [_ ->]]]]. split; [reflexivity |].
    intro Hne. contradiction.
  - destruct Hr as [indices [field [items [ps [Hi [Hf [Hit [Hps ->]]]]]]]].
    split; [reflexivity |]. intros _.
    exists indices, field, items, ps. repeat split; try assumption.
    + symmetry. eapply Forall2_length. exact Hps.
    + intros i j Hj.
      destruct (Forall2_nth_error _ _ _ Hps i j Hj)
        as [p [Hp [x [y [Hx [Hy ->]]]]]].
      exists x, y. repeat split; assumption.
  - destruct Hr as [indices [field [items [ps [Hi [Hf [Hit [Hps ->]]]]]]]].
    split; [reflexivity |]. intros _.
    exists indices, field, items, ps. repeat split; try assumption.
    + symmetry. eapply Forall2_length. exact Hps.
    + intros i j Hj.
      destruct (Forall2_nth_error _ _ _ Hps i j Hj)
        as [p [Hp [x [y [Hx [Hy ->]]]]]].
      exists x, y. repeat split; assumption.
Qed.

Lemma X9_fromJson_result_witness :
  fresh_process = fresh_process
  /\ isinstance (PPolyLine (PStr "ab") (PList [PPoint (PInt 1) PNone]))
       TPolyLine = true.
Proof.
  pose proof (X9_fromJson_result CPolyLine
                (PDict [("points", PTuple [PDict [("y", PNone); ("x", PInt 1)]]);
                        ("indices", PStr "ab")])
                (PPolyLine (PStr "ab") (PList [PPoint (PInt 1) PNone]))
                fresh_process fresh_process eq_refl) as [H1 [H2 _]].
  split; [exact H1 | exact H2].
Defined.

Lemma rebuilds_decodes (j p : pyval) :
  rebuilds j p -> decodes_to (json_to_triple j) p.
Proof.
  intros [x [y [Hx [Hy ->]]]]. unfold json_to_triple. rewrite Hx, Hy.
  apply point_triple_decodes.
Qed.

Lemma rebuilds_decodes_all (js ps : list pyval) :
  Forall2 rebuilds js ps -> Forall2 decodes_to (map json_to_triple js) ps.
Proof.
  induction 1 as [| j p js ps Hjp _ IH]; simpl; constructor.
  - apply rebuilds_decodes. exact Hjp.
  - exact IH.
Qed.

(** X10: for points and polygons the JSON path and the engine-datum
    path build the same entities.  Whatever the [fromJson] of a Point
    or Polygon class rebuilds from a JSON object, the [deserialize] of
    that shape's codec decodes from the triple with the same content:
    the tag, the indices, and [(1, x, y)] for every point object. *)
Theorem X10_json_and_datum_agree `{Formatter}
  (c : shape_class) (json r : pyval) (w w' : world) :
  class_variant c <> VPolyLine ->
  class_fromJson c json w = (Ok r, w') ->
  deserialize (class_variant c) (json_to_datum (class_variant c) json) w
  = (Ok r, w).
Proof.
  intros Hc Hj. destruct (class_fromJson_inv c json r w w' Hj) as [_ Hr].
  destruct (class_variant c) eqn:Hv.
  - apply (rebuilds_decodes json r Hr).
  - destruct Hr as [indices [field [items [ps [Hi [Hf [Hit [Hps ->]]]]]]]].
    unfold json_to_datum. rewrite Hi, Hf, Hit.
    apply PolygonUDT_deserialize_triple;
      [reflexivity | apply rebuilds_decodes_all; exact Hps].
  - contradiction.
Qed.

Lemma X10_json_and_datum_agree_witness :
  PolygonUDT.deserialize
    (PTuple [PInt 5; PList [PInt 0];
             PList [PTuple [PInt 1; PInt 1; PInt 2];
                    PTuple [PInt 1; PInt 3; PInt 4]]]) fresh_process
  = (Ok (PPolygon (PList [PInt 0])
           (PList [PPoint (PInt 1) (PInt 2); PPoint (PInt 3) (PInt 4)])),
     fresh_process).
Proof.
  apply (@X10_json_and_datum_agree sample_formatter CPolygonUDT sample_parsed
           (PPolygon (PList [PInt 0])
              (PList [PPoint (PInt 1) (PInt 2); PPoint (PInt 3) (PInt 4)]))
           fresh_process fresh_process).
  - discriminate.
  - reflexivity.
Defined.

(** X26: no [fromJson] of the polygon and polyline classes checks an
    invariant of the shape.  From any mapping with ["indices"] and a
    ["points"] sequence of point objects each of the four builds the
    entity with those indices, whatever they are, and one point for
    each point object, however many there are; the state is left as it
    was. *)
Theorem X26_fromJson_no_invariant_check
  (json indices field : pyval) (js : list pyval) (w : world) :
  py_getitem json "indices" = Ok indices ->
  py_getitem json "points" = Ok field ->
  py_iter field = Ok js ->
  Forall json_point js ->
  exists ps,
    List.length ps = List.length js
    /\ PolygonUDT.fromJson json w = (Ok (PPolygon indices (PList ps)), w)
    /\ Polygon.fromJson json w = (Ok (PPolygon indices (PList ps)), w)
    /\ PolyLineUDT.fromJson json w = (Ok (PPolyLine indices (PList ps)), w)
    /\ PolyLine.fromJson json w = (Ok (PPolyLine indices (PList ps)), w).
Proof.
  intros Hi Hf Hit Hjs.
  destruct (poly_fromJson_ok json indices field js Hi Hf Hit Hjs)
    as [ps [Hlen Hps]].
  exists ps. split; [exact Hlen | apply Hps].
Qed.

(** An instance that breaks every invariant: indices that point outside
    the points, and a ring of two points that is not closed. *)
Lemma X26_fromJson_no_invariant_check_witness :
  exists ps,
    List.length ps = 2
    /\ PolygonUDT.fromJson
         (PDict [("indices", PList [PInt 7]);
                 ("points", PList [PDict [("x", PInt 0); ("y", PInt 0)];
                                   PDict [("x", PInt 1); ("y", PInt 1)]])])
         fresh_process
       = (Ok (PPolygon (PList [PInt 7]) (PList ps)), fresh_process)
    /\ Polygon.fromJson
         (PDict [("indices", PList [PInt 7]);
                 ("points", PList [PDict [("x", PInt 0); ("y", PInt 0)];
                                   PDict [("x", PInt 1); ("y", PInt 1)]])])
         fresh_process
       = (Ok (PPolygon (PList [PInt 7]) (PList ps)), fresh_process)
    /\ PolyLineUDT.fromJson
         (PDict [("indices", PList [PInt 7]);
                 ("points", PList [PDict [("x", PInt 0); ("y", PInt 0)];
                                   PDict [("x", PInt 1); ("y", PInt 1)]])])
         fresh_process
       = (Ok (PPolyLine (PList [PInt 7]) (PList ps)), fresh_process)
    /\ PolyLine.fromJson
         (PDict [("indices", PList [PInt 7]);
                 ("points", PList [PDict [("x", PInt 0); ("y", PInt 0)];
                                   PDict [("x", PInt 1); ("y", PInt 1)]])])
         fresh_process
       = (Ok (PPolyLine (PList [PInt 7]) (PList ps)), fresh_process).
Proof.
  apply (X26_fromJson_no_invariant_check
           (PDict [("indices", PList [PInt 7]);
                   ("points", PList [PDict [("x", PInt 0); ("y", PInt 0)];
                                     PDict [("x", PInt 1); ("y", PInt 1)]])])
           (PList [PInt 7])
           (PList [PDict [("x", PInt 0); ("y", PInt 0)];
                   PDict [("x", PInt 1); ("y", PInt 1)]])
           [PDict [("x", PInt 0); ("y", PInt 0)];
            PDict [("x", PInt 1); ("y", PInt 1)]]
           fresh_process).
  - reflexivity.
  - reflexivity.
  - reflexivity.
  - repeat constructor; do 2 eexists; split; reflexivity.
Defined.

(* ================================================================= *)
(** ** The registration hook under failure *)

(** The loop finds a method exactly when one is named
    ["registerPicklers"]. *)
Lemma find_wmethod_from (methods : list string) (acc : option string) :
  fold_left
    (fun wmethod mthd =>
       if String.eqb mthd "registerPicklers" then Some mthd else wmethod)
    methods acc
  = if existsb (fun m => String.eqb m "registerPicklers") methods
    then Some "registerPicklers" else acc.
Proof.
  revert acc. induction methods as [| m ms IH]; intro acc; simpl.
  - reflexivity.
  - rewrite IH. destruct (String.eqb m "registerPicklers") eqn:Hm; simpl.
    + apply String.eqb_eq in Hm. subst m.
      destruct (existsb _ ms); reflexivity.
    + reflexivity.
Qed.

Lemma find_wmethod_existsb (methods : list string) :
  Shape.find_wmethod methods
  = if existsb (fun m => String.eqb m "registerPicklers") methods
    then Some "registerPicklers" else None.
Proof. apply find_wmethod_from. Qed.

(** X11: the loop that looks for the JVM method finds it exactly when
    the class lists a method named [registerPicklers], wherever it
    stands in the list and however often it occurs. *)
Theorem X11_find_wmethod (methods : list string) :
  (In "registerPicklers" methods ->
   Shape.find_wmethod methods = Some "registerPicklers")
  /\ (~ In "registerPicklers" methods -> Shape.find_wmethod methods = None).
Proof.
  rewrite find_wmethod_existsb.
  destruct (existsb (fun m => String.eqb m "registerPicklers") methods) eqn:He.
  - split; [reflexivity |]. intro Hn. exfalso. apply Hn.
    apply existsb_exists in He as [m [Hin Hm]].
    apply String.eqb_eq in Hm. subst m. exact Hin.
  - split; [| reflexivity]. intro Hin.
    assert (Ht : existsb (fun m => String.eqb m "registerPicklers") methods
                 = true).
    { apply existsb_exists. exists "registerPicklers".
      split; [exact Hin | apply String.eqb_refl]. }
    rewrite Ht in He. discriminate He.
Qed.

Lemma X11_find_wmethod_witness :
  Shape.find_wmethod ["toString"; "registerPicklers"; "hashCode";
                      "registerPicklers"] = Some "registerPicklers"
  /\ Shape.find_wmethod ["toString"; "registerpicklers"] = None.
Proof.
  split.
  - apply (proj1 (X11_find_wmethod ["toString"; "registerPicklers";
                                    "hashCode"; "registerPicklers"])).
    simpl. auto.
  - apply (proj2 (X11_find_wmethod ["toString"; "registerpicklers"])).
    simpl. intros [H | [H | H]]; [discriminate H | discriminate H | exact H].
Defined.

(** How the hook fails where the host cannot register. *)
Lemma registerPicklers_fails (self : pyval) (w : world) :
  __initialized__ w = false -> host_ready w = false ->
  Shape.registerPicklers self w
  = (Raise (Exn (if _active_spark_context w then
                   match jvm_EvaluatePython w with
                   | Some _ => AttributeError
                   | None => Py4JJavaError
                   end
                 else AttributeError) Interpreter), w).
Proof.
  destruct w as [flag ctx cls regs out]. unfold host_ready; simpl.
  intros -> Hready.
  unfold Shape.registerPicklers, bind, get; simpl.
  destruct ctx; [| reflexivity]. simpl in Hready.
  destruct cls as [methods |]; [| reflexivity].
  destruct (Shape.find_wmethod methods); [discriminate Hready | reflexivity].
Qed.

(** X12: while the flag is not set and the host cannot register, the
    hook and every [jsonValue] raise and change nothing: an attribute
    error without an active Spark context or without a JVM method of
    the right name, the JVM's error when the class cannot be loaded.
    No mapping is returned, no registration is counted and the flag
    stays unset, so that a later call tries again. *)
Theorem X12_hook_failure (v : variant) (self : pyval) (w : world) :
  __initialized__ w = false -> host_ready w = false ->
  let e := Exn (if _active_spark_context w then
                  match jvm_EvaluatePython w with
                  | Some _ => AttributeError
                  | None => Py4JJavaError
                  end
                else AttributeError) Interpreter in
  Shape.registerPicklers self w = (Raise e, w)
  /\ jsonValue v self w = (Raise e, w).
Proof.
  intros Hflag Hready e.
  pose proof (registerPicklers_fails self w Hflag Hready) as Hhook.
  split; [exact Hhook |].
  destruct v; simpl;
    unfold Point.jsonValue, Polygon.jsonValue, PolyLine.jsonValue;
    apply bind_raise; exact Hhook.
Qed.

Lemma X12_hook_failure_witness :
  Shape.registerPicklers PNone (mkWorld false false None 0 [])
  = (Raise (Exn AttributeError Interpreter), mkWorld false false None 0 [])
  /\ Point.jsonValue PNone (mkWorld false false None 0 [])
     = (Raise (Exn AttributeError Interpreter), mkWorld false false None 0 []).
Proof.
  apply (X12_hook_failure VPoint PNone (mkWorld false false None 0 []));
    reflexivity.
Defined.

(* ================================================================= *)
(** ** At most one registration, whatever happens *)

Lemma registration_step_pure {A} (c : M A) (w : world) :
  pure c -> registration_step w (snd (c w)).
Proof. intros [r Hc]. rewrite Hc. left. split; reflexivity. Qed.

Lemma registration_step_quiet {A} (c : M A) (w : world) :
  quiet c -> registration_step w (snd (c w)).
Proof.
  intros [r Hc]. destruct (Hc w) as [out Hout]. rewrite Hout.
  left. split; reflexivity.
Qed.

Lemma registration_step_hook (self : pyval) (w : world) :
  registration_step w (snd (Shape.registerPicklers self w)).
Proof.
  destruct (__initialized__ w) eqn:Hflag.
  - rewrite (registerPicklers_again self w Hflag). left. split; reflexivity.
  - destruct (host_ready w) eqn:Hready.
    + rewrite (registerPicklers_first self w Hflag Hready).
      right. repeat split. exact Hflag.
    + rewrite (registerPicklers_fails self w Hflag Hready).
      left. split; reflexivity.
Qed.

Lemma jsonValue_state (v : variant) (self : pyval) (w : world) :
  snd (jsonValue v self w) = snd (Shape.registerPicklers self w).
Proof.
  destruct v; simpl;
    unfold Point.jsonValue, Polygon.jsonValue, PolyLine.jsonValue, bind;
    destruct (Shape.registerPicklers self w) as [[[] | e] w1]; reflexivity.
Qed.

Lemma deserialize_quiet `{Formatter} (v : variant) (datum : pyval) :
  quiet (deserialize v datum).
Proof.
  destruct v; simpl.
  - apply quiet_of_pure, PointUDT_deserialize_pure.
  - apply quiet_of_pure, PolygonUDT_deserialize_pure.
  - apply PolyLineUDT_deserialize_quiet.
Qed.

Lemma registration_step_event `{Formatter} (w : world) (e : event) :
  registration_step w (after_event w e).
Proof.
  destruct e as [[v obj | v datum | c json | v self | self] | ctx methods];
    simpl.
  - apply registration_step_pure, serialize_pure.
  - apply registration_step_quiet, deserialize_quiet.
  - apply registration_step_pure, fromJson_pure.
  - rewrite jsonValue_state. apply registration_step_hook.
  - apply registration_step_hook.
  - left. split; reflexivity.
Qed.

(** X13: in any succession of calls of the module (their exceptions
    caught or not) and changes of the host, the registration is
    performed at most once: from a state with the flag unset the count
    of registrations has grown by one exactly if the flag is now set,
    and from a state with the flag set neither ever changes again. *)
Theorem X13_at_most_one_registration `{Formatter}
  (es : list event) (w : world) :
  let w' := after_events es w in
  (__initialized__ w = true ->
   __initialized__ w' = true /\ jvm_registrations w' = jvm_registrations w)
  /\ (__initialized__ w = false ->
      jvm_registrations w'
      = if __initialized__ w' then S (jvm_registrations w)
        else jvm_registrations w).
Proof.
  unfold after_events. revert w.
  induction es as [| e es IH]; intro w; cbn [fold_left].
  - split.
    + intro Hw. split; [exact Hw | reflexivity].
    + intros ->. reflexivity.
  - destruct (IH (after_event w e)) as [IHset IHunset].
    destruct (registration_step_event w e) as [[Hf Hr] | [Hf [Hf' Hr]]].
    + split.
      * intro Hw. rewrite Hw in Hf. destruct (IHset Hf) as [H1 H2].
        split; [exact H1 | rewrite H2; exact Hr].
      * intro Hw. rewrite Hw in Hf. rewrite (IHunset Hf), Hr. reflexivity.
    + split.
      * intro Hw. rewrite Hw in Hf. discriminate Hf.
      * intros _. destruct (IHset Hf') as [H1 H2].
        rewrite H1, H2. exact Hr.
Qed.

Lemma X13_at_most_one_registration_witness :
  jvm_registrations
    (@after_events sample_formatter
       [Call (CallJsonValue VPoint PNone);
        HostChange true (Some ["registerPicklers"]);
        Call (CallJsonValue VPolygon PNone);
        Call (CallRegisterPicklers PNone);
        HostChange false None;
        Call (CallDeserialize VPolyLine (PTuple [PInt 3; PNone; PList []]));
        Call (CallJsonValue VPolyLine PNone)]
       (mkWorld false false None 0 []))
  = 1.
Proof.
  apply (proj2 (@X13_at_most_one_registration sample_formatter
                  [Call (CallJsonValue VPoint PNone);
                   HostChange true (Some ["registerPicklers"]);
                   Call (CallJsonValue VPolygon PNone);
                   Call (CallRegisterPicklers PNone);
                   HostChange false None;
                   Call (CallDeserialize VPolyLine
                           (PTuple [PInt 3; PNone; PList []]));
                   Call (CallJsonValue VPolyLine PNone)]
                  (mkWorld false false None 0 []))).
  reflexivity.
Defined.


(* ================================================================= *)
(** ** The dispatcher as a static registry *)

(** The last dot of a string: there is none, or the string is a prefix,
    a dot and a dot-free rest. *)
Lemma rfind_from_cases (s : string) (i found : Z) :
  (no_dot s = true /\ rfind_from s i found = found)
  \/ (exists a b, s = a ++ "." ++ b /\ no_dot b = true
                  /\ rfind_from s i found = (i + Z.of_nat (String.length a))%Z).
Proof.
  revert i found. induction s as [| c s IH]; intros i found.
  - left. split; reflexivity.
  - cbn [rfind_from no_dot].
    destruct (IH (i + 1)%Z (if Ascii.eqb c "."%char then i else found))
      as [[Hs Hr] | [a [b [-> [Hb Hr]]]]].
    + destruct (Ascii.eqb c "."%char) eqn:Hc.
      * right. apply Ascii.eqb_eq in Hc. subst c.
        exists EmptyString, s. repeat split; [exact Hs |].
        rewrite Hr. simpl. lia.
      * left. split; [exact Hs | exact Hr].
    + right. exists (String c a), b. repeat split; [exact Hb |].
      rewrite Hr. cbn [String.length]. lia.
Qed.

Lemma rfind_dot_cases (s : string) :
  (no_dot s = true /\ rfind_dot s = (-1)%Z)
  \/ (exists a b, s = a ++ "." ++ b /\ no_dot b = true
                  /\ rfind_dot s = Z.of_nat (String.length a)).
Proof.
  unfold rfind_dot.
  destruct (rfind_from_cases s 0 (-1)) as [H | [a [b [Hs [Hb Hr]]]]].
  - left. exact H.
  - right. exists a, b. repeat split; [exact Hs | exact Hb |].
    rewrite Hr. lia.
Qed.

Lemma no_dot_append (a b : string) :
  no_dot (a ++ b) = no_dot a && no_dot b.
Proof.
  induction a as [| c a IH]; simpl; [reflexivity |].
  rewrite IH. apply andb_assoc.
Qed.

Lemma no_dot_substring (s : string) (n : nat) :
  no_dot s = true -> no_dot (substring 0 n s) = true.
Proof.
  revert n. induction s as [| c s IH]; intros n Hs.
  - destruct n; reflexivity.
  - destruct n; [reflexivity |]. simpl in *.
    apply andb_true_iff in Hs as [Hc Hs]. rewrite Hc. simpl.
    apply IH. exact Hs.
Qed.

Lemma eqb_no_dot (s t : string) :
  no_dot s = true -> no_dot t = false -> String.eqb s t = false.
Proof.
  intros Hs Ht. apply String.eqb_neq. intros ->.
  rewrite Hs in Ht. discriminate Ht.
Qed.

(** Two qualified names are the same exactly when their modules and
    their class names are. *)
Lemma qualified_eqb (a b a' b' : string) :
  no_dot b = true -> no_dot b' = true ->
  String.eqb (a ++ "." ++ b) (a' ++ "." ++ b')
  = String.eqb a a' && String.eqb b b'.
Proof.
  intros Hb Hb'.
  destruct (String.eqb_spec (a ++ "." ++ b) (a' ++ "." ++ b')) as [He | Hn].
  - destruct (split_qualified a b Hb) as [Ha1 Hb1].
    destruct (split_qualified a' b' Hb') as [Ha2 Hb2].
    rewrite He in Ha1, Hb1. rewrite Ha2 in Ha1. rewrite Hb2 in Hb1.
    subst. rewrite !String.eqb_refl. reflexivity.
  - symmetry. apply andb_false_iff.
    destruct (String.eqb_spec a a') as [-> |]; [| left; reflexivity].
    destruct (String.eqb_spec b b') as [-> |]; [| right; reflexivity].
    contradiction Hn. reflexivity.
Qed.

Lemma find_pointwise {A} (f g : A -> bool) (l : list A) :
  (forall x, f x = g x) -> find f l = find g l.
Proof.
  intro Hfg. induction l as [| x l IH]; simpl; [reflexivity |].
  rewrite Hfg, IH. reflexivity.
Qed.

Lemma find_none {A} (f : A -> bool) (l : list A) :
  (forall x, f x = false) -> find f l = None.
Proof.
  intro Hf. induction l as [| x l IH]; simpl; [reflexivity |].
  rewrite Hf. exact IH.
Qed.

Lemma registry_no_dot (s : string) : no_dot s = true -> registry s = None.
Proof.
  intro Hs. apply find_none. intro c.
  apply eqb_no_dot; [exact Hs | destruct c; reflexivity].
Qed.

Lemma registry_qualified (a b : string) :
  no_dot b = true ->
  registry (a ++ "." ++ b)
  = if String.eqb a "magellan.types" then magellan_types_class b else None.
Proof.
  intro Hb. unfold registry, magellan_types_class.
  destruct (String.eqb a "magellan.types") eqn:Ha.
  - apply find_pointwise. intro c.
    change ("magellan.types." ++ class_name c)
      with ("magellan.types" ++ "." ++ class_name c).
    rewrite (qualified_eqb a b _ _ Hb (class_name_no_dot c)), Ha.
    reflexivity.
  - apply find_none. intro c.
    change ("magellan.types." ++ class_name c)
      with ("magellan.types" ++ "." ++ class_name c).
    rewrite (qualified_eqb a b _ _ Hb (class_name_no_dot c)), Ha.
    reflexivity.
Qed.

(** The dynamic lookup on the two halves of a name is the table lookup
    on the whole name. *)
Lemma resolve_registry `{Host} (s : string) :
  resolve_fromJson (slice_to s (rfind_dot s))
    (slice_from s (rfind_dot s + 1))
  = match registry s with
    | Some c => class_fromJson c
    | None =>
        foreign_fromJson (slice_to s (rfind_dot s))
          (slice_from s (rfind_dot s + 1))
    end.
Proof.
  destruct (rfind_dot_cases s) as [[Hs Hk] | [a [b [-> [Hb Hk]]]]].
  - rewrite (registry_no_dot s Hs). unfold resolve_fromJson.
    rewrite (eqb_no_dot (slice_to s (rfind_dot s)) "magellan.types");
      [reflexivity | | reflexivity].
    unfold slice_to. apply no_dot_substring. exact Hs.
  - destruct (split_qualified a b Hb) as [Ha1 Hb1].
    rewrite Ha1, Hb1, (registry_qualified a b Hb).
    unfold resolve_fromJson.
    destruct (String.eqb a "magellan.types"); [| reflexivity].
    destruct (magellan_types_class b); reflexivity.
Qed.

(** X14: on the six qualified names the dynamic resolution of the
    dispatcher is a static registry.  With the envelope parsed and
    [str(j["pyClass"])] known, the converter returns what the
    [fromJson] of the class returns when the name is one of the six
    qualified names [magellan.types.<Class>] of this module; on every
    other name it returns whatever the import of the name split at its
    last dot gives, which is the host's business (Python 2's relative
    import can lead such a name, [types.PolygonUDT] for one, to this
    module again). *)
Theorem X14_dispatch_is_registry `{Formatter} `{Host}
  (json_string shapeType : string) (j pyClass : pyval) (w : world) :
  json_loads json_string = Ok j ->
  py_getitem j "pyClass" = Ok pyClass ->
  py_str pyClass = Ok shapeType ->
  _inbound_shape_converter json_string w
  = match registry shapeType with
    | Some c => class_fromJson c j w
    | None =>
        foreign_fromJson (slice_to shapeType (rfind_dot shapeType))
          (slice_from shapeType (rfind_dot shapeType + 1)) j w
    end.
Proof.
  intros Hparse Hcls Hstr.
  unfold _inbound_shape_converter, bind, lift.
  rewrite Hparse, Hcls, Hstr. cbv zeta.
  rewrite resolve_registry. destruct (registry shapeType); reflexivity.
Qed.

Lemma X14_dispatch_is_registry_witness :
  @_inbound_shape_converter sample_formatter description_host
    "shape class" fresh_process
  = (Ok (PPoint (PInt 1) (PInt 2)), fresh_process).
Proof.
  apply (@X14_dispatch_is_registry sample_formatter description_host
           "shape class" "magellan.types.Point"
           (PDict [("pyClass", PStr "magellan.types.Point");
                   ("x", PInt 1); ("y", PInt 2)])
           (PStr "magellan.types.Point") fresh_process);
    reflexivity.
Defined.

Lemma substring_length (s : string) (n : nat) :
  n <= String.length s -> String.length (substring 0 n s) = n.
Proof.
  revert n. induction s as [| c s IH]; intros n Hn; simpl in Hn.
  - destruct n; [reflexivity | lia].
  - destruct n; [reflexivity |]. simpl. rewrite IH; [reflexivity | lia].
Qed.

Lemma slice_from_zero (s : string) : slice_from s 0 = s.
Proof.
  unfold slice_from, slice_bound. simpl.
  replace (Z.to_nat (Z.min (Z.of_nat (String.length s)) 0)) with 0 by lia.
  rewrite Nat.sub_0_r. apply substring_all.
Qed.

(** X15: a class name without any dot is never looked up in this
    module.  [rfind] answers [-1], so that the module to import is the
    name without its last character and the attribute is the whole
    name: a bare ["PointUDT"] asks for the module ["PointUD"]. *)
Theorem X15_bare_name_dispatch `{Formatter} `{Host}
  (json_string shapeType : string) (j pyClass : pyval) (w : world) :
  json_loads json_string = Ok j ->
  py_getitem j "pyClass" = Ok pyClass ->
  py_str pyClass = Ok shapeType ->
  no_dot shapeType = true ->
  _inbound_shape_converter json_string w
  = foreign_fromJson (slice_to shapeType (-1)) shapeType j w
  /\ String.length (slice_to shapeType (-1)) = String.length shapeType - 1.
Proof.
  intros Hparse Hcls Hstr Hs.
  destruct (rfind_dot_cases shapeType) as [[_ Hk] | [a [b [He [Hb Hk]]]]].
  - split.
    + unfold _inbound_shape_converter, bind, lift.
      rewrite Hparse, Hcls, Hstr. cbv zeta.
      rewrite resolve_registry, (registry_no_dot shapeType Hs), Hk.
      change (-1 + 1)%Z with 0%Z. rewrite slice_from_zero. reflexivity.
    + assert (Hb : slice_bound shapeType (-1) = String.length shapeType - 1).
      { unfold slice_bound. change (-1 <? 0)%Z with true. cbv iota. lia. }
      unfold slice_to. rewrite Hb. apply substring_length. lia.
  - exfalso. rewrite He, !no_dot_append in Hs. simpl in Hs.
    rewrite andb_false_r in Hs. discriminate Hs.
Qed.

Lemma X15_bare_name_dispatch_witness :
  @_inbound_shape_converter sample_formatter description_host
    "bare name" fresh_process
  = (Raise (Exn ImportError (Text "PointUD/PointUDT")), fresh_process).
Proof.
  apply (proj1 (@X15_bare_name_dispatch sample_formatter description_host
                  "bare name" "PointUDT"
                  (PDict [("pyClass", PStr "PointUDT")]) (PStr "PointUDT")
                  fresh_process eq_refl eq_refl eq_refl eq_refl)).
Defined.

(** X16: splitting at the last dot loses nothing.  For a name with a
    dot, the module part, a dot and the class part put together are the
    name again, the class part has no dot, and the split index lies
    inside the name. *)
Theorem X16_split_rejoin (s : string) :
  no_dot s = false ->
  let split := rfind_dot s in
  slice_to s split ++ "." ++ slice_from s (split + 1) = s
  /\ no_dot (slice_from s (split + 1)) = true
  /\ (0 <= split < Z.of_nat (String.length s))%Z.
Proof.
  intros Hs split. unfold split.
  destruct (rfind_dot_cases s) as [[Hn _] | [a [b [-> [Hb Hk]]]]].
  - rewrite Hn in Hs. discriminate Hs.
  - destruct (split_qualified a b Hb) as [Ha1 Hb1].
    rewrite Ha1, Hb1. repeat split; [exact Hb | |].
    + rewrite Hk. lia.
    + rewrite Hk, !length_append. simpl. lia.
Qed.

Lemma X16_split_rejoin_witness :
  slice_to "a.b..c" (rfind_dot "a.b..c") ++ "."
  ++ slice_from "a.b..c" (rfind_dot "a.b..c" + 1) = "a.b..c"
  /\ no_dot (slice_from "a.b..c" (rfind_dot "a.b..c" + 1)) = true
  /\ (0 <= rfind_dot "a.b..c" < 6)%Z.
Proof. apply (X16_split_rejoin "a.b..c"). reflexivity. Defined.

(** X17: before any class is resolved the converter can fail in three
    ways, each leaving the state as it was: with the parser's own
    exception on a text it rejects, with the key error of ["pyClass"]
    on an object without that key, and with a type error when the text
    is JSON but not an object. *)
Theorem X17_dispatch_failures `{Formatter} `{Host}
  (json_string : string) (w : world) :
  (forall e, json_loads json_string = Raise e ->
     _inbound_shape_converter json_string w = (Raise e, w))
  /\ (forall d, json_loads json_string = Ok (PDict d) ->
        assoc "pyClass" d = None ->
        _inbound_shape_converter json_string w
        = (Raise (Exn KeyError (Value (PStr "pyClass"))), w))
  /\ (forall j, json_loads json_string = Ok j -> py_type j <> TDict ->
        _inbound_shape_converter json_string w
        = (Raise (Exn TypeError Interpreter), w)).
Proof.
  split; [| split].
  - intros e He. unfold _inbound_shape_converter, bind, lift.
    rewrite He. reflexivity.
  - intros d Hd Hk. unfold _inbound_shape_converter, bind, lift.
    rewrite Hd. simpl. rewrite Hk. reflexivity.
  - intros j Hj Hty. unfold _inbound_shape_converter, bind, lift.
    rewrite Hj. destruct j; try reflexivity.
    exfalso. apply Hty. reflexivity.
Qed.

Lemma X17_dispatch_failures_witness :
  @_inbound_shape_converter sample_formatter description_host
    "not json" fresh_process
  = (Raise (Exn ValueError Interpreter), fresh_process)
  /\ @_inbound_shape_converter sample_formatter description_host
       "no class" fresh_process
     = (Raise (Exn KeyError (Value (PStr "pyClass"))), fresh_process)
  /\ @_inbound_shape_converter sample_formatter description_host
       "array" fresh_process
     = (Raise (Exn TypeError Interpreter), fresh_process).
Proof.
  destruct (@X17_dispatch_failures sample_formatter description_host)
    with (json_string := "not json") (w := fresh_process) as [H1 _].
  destruct (@X17_dispatch_failures sample_formatter description_host)
    with (json_string := "no class") (w := fresh_process) as [_ [H2 _]].
  destruct (@X17_dispatch_failures sample_formatter description_host)
    with (json_string := "array") (w := fresh_process) as [_ [_ H3]].
  split; [| split].
  - apply H1. reflexivity.
  - apply (H2 [("x", PInt 1)]); reflexivity.
  - apply (H3 (PList [])); [reflexivity | discriminate].
Defined.

(** X18: the self-description is an envelope without a payload.  When
    the text handed to the converter parses to the very mapping a
    [jsonValue] returned, the class resolves to the variant's codec and
    its [fromJson] raises the key error of the first key it reads,
    ["x"] for a point and ["indices"] otherwise. *)
Theorem X18_description_has_no_payload `{Formatter} `{Host}
  (v : variant) (self d : pyval) (w0 w1 : world)
  (json_string : string) (w : world) :
  jsonValue v self w0 = (Ok d, w1) ->
  json_loads json_string = Ok d ->
  _inbound_shape_converter json_string w
  = (Raise (Exn KeyError (Value (PStr (first_key (codec_class v))))), w).
Proof.
  intros Hd Hparse. apply jsonValue_inv in Hd. subst d.
  unfold _inbound_shape_converter, bind, lift. rewrite Hparse.
  destruct v; reflexivity.
Qed.

Lemma X18_description_has_no_payload_witness :
  @_inbound_shape_converter sample_formatter description_host
    "polygon description" fresh_process
  = (Raise (Exn KeyError (Value (PStr "indices"))), fresh_process).
Proof.
  apply (@X18_description_has_no_payload sample_formatter description_host
           VPolygon PNone
           (PDict [("type", PStr "udt");
                   ("pyClass", PStr "magellan.types.PolygonUDT");
                   ("class", PStr "magellan.Polygon");
                   ("sqlType", PStr "magellan.Polygon")])
           fresh_process (registered fresh_process)
           "polygon description" fresh_process);
    reflexivity.
Defined.

(* ================================================================= *)
(** ** Pickling, equality and rendering of the shapes *)

(** X19: [__reduce__] and the constructor fit together.  For an
    instance of a shape, [__reduce__] names the instance's own class
    and arguments on which that class builds the same instance again;
    more than two positional arguments are refused. *)
Theorem X19_reduce_rebuilds (v : variant) (p : pyval) :
  isinstance p (native v) = true ->
  (exists args,
     reduce v p = PTuple [PType (native v); PTuple args]
     /\ construct v args = Ok p)
  /\ (forall args, 2 < List.length args ->
        construct v args = Raise (Exn TypeError Interpreter)).
Proof.
  intro Hp. split.
  - destruct v, p; simpl in Hp; try discriminate Hp;
      eexists; split; reflexivity.
  - intros args Hargs.
    destruct args as [| a [| b [| c args]]]; simpl in Hargs; try lia.
    destruct v; reflexivity.
Qed.

Lemma X19_reduce_rebuilds_witness :
  exists args,
    Polygon.__reduce__ (PPolygon (PList [PInt 0]) (PList []))
    = PTuple [PType TPolygon; PTuple args]
    /\ Polygon.__init__ args = Ok (PPolygon (PList [PInt 0]) (PList [])).
Proof.
  apply (proj1 (X19_reduce_rebuilds VPolygon
                  (PPolygon (PList [PInt 0]) (PList [])) eq_refl)).
Defined.

(** X20: a point with numeric coordinates equals itself under
    [Point.__eq__] exactly when neither coordinate is the float NaN. *)
Theorem X20_point_equals_itself (x y : pyval) (n m : number) :
  as_number x = Some n -> as_number y = Some m ->
  (Point.__eq__ (PPoint x y) (PPoint x y) = true
   <-> n <> NFloat S754_nan /\ m <> NFloat S754_nan).
Proof.
  intros Hx Hy. unfold Point.__eq__. cbn [isinstance py_type pytype_beq
    Point.x Point.y andb].
  rewrite andb_true_iff, (number_self_eq x n Hx), (number_self_eq y m Hy).
  reflexivity.
Qed.

Lemma X20_point_equals_itself_witness :
  Point.__eq__ (PPoint (PFloat float_1) (PBool true))
    (PPoint (PFloat float_1) (PBool true)) = true.
Proof.
  apply (proj2 (X20_point_equals_itself (PFloat float_1) (PBool true)
                  (NFloat float_1) (NInt 1) eq_refl eq_refl)).
  split; discriminate.
Defined.

(** X21: on points with numeric coordinates [Point.__eq__] is
    symmetric, whatever mix of [int], [long], [bool] and [float] the
    four coordinates are. *)
Theorem X21_point_eq_symmetric (x y x' y' : pyval) (n m n' m' : number) :
  as_number x = Some n -> as_number y = Some m ->
  as_number x' = Some n' -> as_number y' = Some m' ->
  Point.__eq__ (PPoint x y) (PPoint x' y')
  = Point.__eq__ (PPoint x' y') (PPoint x y).
Proof.
  intros Hx Hy Hx' Hy'. unfold Point.__eq__.
  cbn [isinstance py_type pytype_beq Point.x Point.y andb].
  rewrite (py_eq_numbers x x' n n' Hx Hx'), (py_eq_numbers y y' m m' Hy Hy'),
    (py_eq_numbers x' x n' n Hx' Hx), (py_eq_numbers y' y m' m Hy' Hy),
    (number_eq_sym n n'), (number_eq_sym m m').
  reflexivity.
Qed.

Lemma X21_point_eq_symmetric_witness :
  Point.__eq__ (PPoint (PInt 1) (PFloat float_2))
    (PPoint (PFloat float_1) (PLong 2))
  = Point.__eq__ (PPoint (PFloat float_1) (PLong 2))
      (PPoint (PInt 1) (PFloat float_2)).
Proof.
  apply (X21_point_eq_symmetric (PInt 1) (PFloat float_2) (PFloat float_1)
           (PLong 2) (NInt 1) (NFloat float_2) (NFloat float_1) (NInt 2));
    reflexivity.
Defined.

(** X22: the rendering of a polygon or polyline needs sequences.  It
    raises a type error when the indices cannot be iterated (a number,
    [None], a shape), and also when the indices have been rendered and
    the points cannot be iterated. *)
Theorem X22_str_needs_sequences `{Formatter} (indices points : pyval) :
  ((forall l, py_iter indices <> Ok l) ->
   Polygon.__str__ (PPolygon indices points)
   = Raise (Exn TypeError Interpreter)
   /\ PolyLine.__str__ (PPolyLine indices points)
      = Raise (Exn TypeError Interpreter))
  /\ (forall ixs sixs,
        py_iter indices = Ok ixs -> mapR py_str ixs = Ok sixs ->
        (forall l, py_iter points <> Ok l) ->
        Polygon.__str__ (PPolygon indices points)
        = Raise (Exn TypeError Interpreter)
        /\ PolyLine.__str__ (PPolyLine indices points)
           = Raise (Exn TypeError Interpreter)).
Proof.
  split.
  - intro Hi. apply py_iter_fails in Hi.
    unfold Polygon.__str__, PolyLine.__str__, Polygon_str, PolyLine_str.
    cbn [Polygon.indices Polygon.points PolyLine.indices PolyLine.points].
    rewrite !str_items_comprehension, Hi. split; reflexivity.
  - intros ixs sixs Hi Hsi Hp. apply py_iter_fails in Hp.
    unfold Polygon.__str__, PolyLine.__str__, Polygon_str, PolyLine_str.
    cbn [Polygon.indices Polygon.points PolyLine.indices PolyLine.points].
    rewrite !str_items_comprehension, Hi, Hp. cbn [bindR].
    rewrite Hsi. split; reflexivity.
Qed.

Lemma X22_str_needs_sequences_witness :
  @Polygon.__str__ sample_formatter (PPolygon (PInt 0) (PList []))
  = Raise (Exn TypeError Interpreter)
  /\ @PolyLine.__str__ sample_formatter (PPolyLine (PList [PInt 0]) PNone)
     = Raise (Exn TypeError Interpreter).
Proof.
  split.
  - apply (proj1 (@X22_str_needs_sequences sample_formatter
                    (PInt 0) (PList []))).
    intros l H. discriminate H.
  - apply (proj2 (@X22_str_needs_sequences sample_formatter
                    (PList [PInt 0]) PNone) [PInt 0] ["0"] eq_refl eq_refl).
    intros l H. discriminate H.
Defined.

(** X23: the tag of a triple is compared by value, not by type.  The
    Point codec decodes [(tag, x, y)] exactly when the tag is a number
    equal to 1, be it the [int] or [long] 1, [True] or the [float]
    1.0; a tag of any other kind, such as the string ["1"], is
    refused. *)
Theorem X23_point_tag_by_value (tag x y : pyval) (w : world) :
  (exists r w', PointUDT.deserialize (PTuple [tag; x; y]) w = (Ok r, w'))
  <-> (exists n, as_number tag = Some n /\ number_eq n (NInt 1) = true).
Proof.
  split.
  - intros [r [w' H]].
    destruct (PointUDT_deserialize_inv _ r w w' H)
      as [[Hn _] | [_ [_ [tpe [a [b [H0 [Htag _]]]]]]]];
      [discriminate Hn |].
    injection H0 as <-.
    destruct (as_number tag) as [n |] eqn:Hnum.
    + exists n. split; [reflexivity |].
      rewrite <- (py_eq_numbers tag (PInt 1) n (NInt 1) Hnum eq_refl).
      exact Htag.
    + exfalso. destruct tag; simpl in Hnum, Htag; discriminate.
  - intros [n [Hnum Heq]]. exists (PPoint x y), w.
    apply PointUDT_deserialize_triple.
    rewrite (py_eq_numbers tag (PInt 1) n (NInt 1) Hnum eq_refl). exact Heq.
Qed.

Lemma X23_point_tag_by_value_witness :
  (exists r w',
     PointUDT.deserialize (PTuple [PBool true; PInt 2; PInt 3]) fresh_process
     = (Ok r, w'))
  /\ ~ (exists r w',
          PointUDT.deserialize (PTuple [PStr "1"; PInt 2; PInt 3])
            fresh_process = (Ok r, w')).
Proof.
  split.
  - apply (proj2 (X23_point_tag_by_value (PBool true) (PInt 2) (PInt 3)
                    fresh_process)).
    exists (NInt 1). split; reflexivity.
  - intro H.
    apply (proj1 (X23_point_tag_by_value (PStr "1") (PInt 2) (PInt 3)
                    fresh_process)) in H.
    destruct H as [n [Hn _]]. discriminate Hn.
Defined.
